(** * word-language-model: the training driver [main.py]

    A shallow embedding of the driver script of an RNN language model:
    the batchifier, the window sampler, the evaluation and training
    loops and the epoch controller, with the neural network itself kept
    as an interface (its layers live in another module of the program).

    Python integers are [Z] ([//] and [%] are [Z.div] and [Z.modulo],
    both rounding towards minus infinity as Python does), Python lists
    and the first axis of a tensor are [list], exceptions are values of
    [exn] carried by [result]. *)

From Stdlib Require Import String.
From Stdlib Require Import ZArith List Lia Bool.
From Stdlib Require Import Floats.PrimFloat.
From Stdlib Require Numbers.Cyclic.Int63.Uint63.
Import ListNotations.
Open Scope Z_scope.

Set Implicit Arguments.

(** ** Exceptions *)

Inductive exn : Type :=
| ZeroDivisionError
| ValueError
| TypeError
| AttributeError
| IndexError
| RuntimeError
| OverflowError
| FileNotFoundError
| KeyboardInterrupt.

Inductive result (A : Type) : Type :=
| Ok (a : A)
| Raise (e : exn).

Arguments Ok {A} a.
Arguments Raise {A} e.

Definition rbind {A B} (r : result A) (k : A -> result B) : result B :=
  match r with
  | Ok a => k a
  | Raise e => Raise e
  end.

Declare Scope py_scope.
Delimit Scope py_scope with py.
Notation "x <- c ;; k" := (rbind c (fun x => k))
  (at level 100, c at next level, right associativity) : py_scope.
Open Scope py_scope.

(** ** Python built-ins used by the script *)

Module Py.

(** [len(l)] *)
Definition len {A} (l : list A) : Z := Z.of_nat (length l).

(** [a // b] on integers *)
Definition floordiv (a b : Z) : result Z :=
  if b =? 0 then Raise ZeroDivisionError else Ok (a / b).

(** [a % b] on integers *)
Definition modulo (a b : Z) : result Z :=
  if b =? 0 then Raise ZeroDivisionError else Ok (a mod b).

(** A slice bound, normalised as [l[lo:hi]] does for a sequence of
    length [n]: negative bounds count from the end, and every bound
    is clamped to [0..n]. *)
Definition slice_bound (n k : Z) : Z :=
  if k <? 0 then Z.max 0 (k + n) else Z.min k n.

(** [l[lo:hi]] *)
Definition slice {A} (l : list A) (lo hi : Z) : list A :=
  let a := slice_bound (len l) lo in
  let b := slice_bound (len l) hi in
  firstn (Z.to_nat (b - a)) (skipn (Z.to_nat a) l).

(** [l[k]] for an index already known to be in range, [d] otherwise *)
Definition item {A} (d : A) (l : list A) (k : Z) : A :=
  if k <? 0 then d else nth (Z.to_nat k) l d.

(** [range(start, stop, step)], as the list of its elements *)
Definition range (start stop step : Z) : result (list Z) :=
  if step =? 0 then Raise ValueError
  else
    let n := if 0 <? step
             then (stop - start + step - 1) / step
             else (start - stop - step - 1) / (- step) in
    Ok (map (fun k => start + Z.of_nat k * step) (seq 0 (Z.to_nat n))).

(** [enumerate(l)] *)
Definition enumerate {A} (l : list A) : list (Z * A) :=
  combine (map Z.of_nat (seq 0 (length l))) l.

End Py.

(** ** Tensors of token ids

    A one-dimensional tensor of token ids is a list; a two-dimensional
    one is the list of its rows (first axis: time steps). *)

Definition tokens := list Z.
Definition grid := list (list Z).

Module Tensor.

(** [t.narrow(0, start, length)]: the slice
    [start .. start+length-1] of the first axis. The length must not
    be negative, the start must lie between [-len(t)] and [len(t)] (a
    negative one counts from the end), and the range must end inside
    the tensor; it may be empty. *)
Definition narrow {A} (t : list A) (start length : Z) : result (list A) :=
  if length <? 0 then Raise RuntimeError
  else if (start <? - Py.len t) || (Py.len t <? start) then Raise IndexError
  else
    let start := if start <? 0 then start + Py.len t else start in
    if start + length <=? Py.len t
    then Ok (firstn (Z.to_nat length) (skipn (Z.to_nat start) t))
    else Raise RuntimeError.

(** [t.view(rows, -1)] of a one-dimensional tensor: [rows] rows, the
    row length inferred; [rows] must be positive and divide the
    element count. A tensor without elements gives [rows] empty rows. *)
Definition view {A} (t : list A) (rows : Z) : result (list (list A)) :=
  if (0 <? rows) && (Py.len t mod rows =? 0)
  then
    let c := Z.to_nat (Py.len t / rows) in
    Ok (map (fun j => firstn c (skipn (j * c) t)) (seq 0 (Z.to_nat rows)))
  else Raise RuntimeError.

(** [m.t()]: entry [(r, c)] of the result is entry [(c, r)] of [m]. *)
Definition t (m : grid) : grid :=
  match m with
  | [] => []
  | row0 :: _ =>
      map (fun r => map (fun row => nth r row 0) m) (seq 0 (length row0))
  end.

(** [m.contiguous()] changes the storage, not the values. *)
Definition contiguous (m : grid) : grid := m.

(** [m.cuda()]: the same values in the memory of the CUDA device. The
    call initialises CUDA first, which raises on a machine without a
    usable device; [cuda_init] is the outcome of that initialisation
    on the machine at hand. *)
Definition cuda (cuda_init : result unit) (m : grid) : result grid :=
  rbind cuda_init (fun _ => Ok m).

(** [m.view(-1)]: the rows laid end to end *)
Definition flatten (m : grid) : tokens := concat m.

(** entry [(r, c)] of a grid *)
Definition cell (m : grid) (r c : Z) : Z := Py.item 0 (Py.item [] m r) c.

(** *** Broadcasting

    Sizes are lists of axis lengths, first axis first; entries are
    kept in row-major order. *)

(** The number of entries of a tensor of the given sizes. *)
Definition numel (size : list nat) : nat := fold_right Nat.mul 1%nat size.

(** Whether sizes [from] can be expanded to sizes [to], both given
    last axis first: axis by axis from the last one, the size of
    [from] is the size asked for or 1; [to] may have more axes. *)
Fixpoint expandable_rev (from to : list nat) : bool :=
  match from, to with
  | [], _ => true
  | _ :: _, [] => false
  | d :: from', d' :: to' => ((d =? d') || (d =? 1))%nat && expandable_rev from' to'
  end.

Definition expandable (from to : list nat) : bool :=
  expandable_rev (rev from) (rev to).

(** Sizes [from] with an axis of size 1 in front for every axis that
    [to] has more. *)
Definition pad_size (from to : list nat) : list nat :=
  repeat 1%nat (length to - length from) ++ from.

(** The entries of [t.expand(to)] for a tensor of sizes [from] with
    as many axes as [to]: along an axis of the size asked for the
    blocks are expanded one by one, along an axis of size 1 the one
    block is expanded and repeated. *)
Fixpoint expand {A} (from to : list nat) (es : list A) : list A :=
  match from, to with
  | d :: from', d' :: to' =>
      if (d =? d')%nat
      then flat_map (fun k => expand from' to'
                                (firstn (numel from') (skipn (k * numel from') es)))
                    (seq 0 d)
      else concat (repeat (expand from' to' es) d')
  | _, _ => es
  end.

End Tensor.

(** ** Load data: [batchify] *)

(** [cuda] is [args.cuda]; [cuda_init] is what initialising CUDA gives
    on the machine at hand (see [Tensor.cuda]). *)
Definition batchify (cuda_init : result unit) (cuda : bool) (data : tokens) (bsz : Z)
  : result grid :=
  (* Work out how cleanly we can divide the dataset into bsz parts. *)
  nbatch <- Py.floordiv (Py.len data) bsz ;;
  (* Trim off any extra elements that wouldn't cleanly fit (remainders). *)
  data1 <- Tensor.narrow data 0 (nbatch * bsz) ;;
  (* Evenly divide the data across the bsz batches. *)
  data2 <- Tensor.view data1 bsz ;;
  let data3 := Tensor.contiguous (Tensor.t data2) in
  if cuda then Tensor.cuda cuda_init data3 else Ok data3.

(** ** Window sampler: [get_batch]

    The slices are taken along the first axis, as Python slices a
    sequence. The flag [evaluation] of the script only marks the input
    as needing no gradient history; it does not change what is
    returned and is left out. *)

Definition seq_len (bptt : Z) (source : grid) (i : Z) : Z :=
  Z.min bptt (Py.len source - 1 - i).

Definition get_batch (bptt : Z) (source : grid) (i : Z) : grid * tokens :=
  let seq_len := seq_len bptt source i in
  let data := Py.slice source i (i + seq_len) in
  let target := Tensor.flatten (Py.slice source (i + 1) (i + 1 + seq_len)) in
  (data, target).

(** The offsets at which [train] and [evaluate] call [get_batch]:
    [range(0, source.size(0) - 1, args.bptt)]. *)
Definition window_offsets (bptt : Z) (source : grid) : result (list Z) :=
  Py.range 0 (Py.len source - 1) bptt.

(** ** Numbers

    The floating-point numbers of the run time (Python floats and the
    entries of float tensors) are kept behind an interface: the driver
    only converts integers, adds, multiplies, divides, negates, compares
    and tests for zero. *)

Class PyFloat (R : Type) : Type := {
  of_int : Z -> R;             (* int operand of a mixed operation *)
  fadd : R -> R -> R;
  fmul : R -> R -> R;
  fdiv : R -> R -> R;          (* true division, divisor not zero *)
  fneg : R -> R;
  flt : R -> R -> bool;        (* x < y *)
  truth : R -> bool            (* bool(x): x != 0 *)
}.

(** Python floats proper: IEEE 754 binary64. The conversion of an
    integer is exact below 2^53 and rounds to nearest below 2^63, as
    [float(n)] does. *)
Definition float_of_int (z : Z) : float :=
  if z <? 0 then PrimFloat.opp (PrimFloat.of_uint63 (Uint63.of_Z (- z)))
  else PrimFloat.of_uint63 (Uint63.of_Z z).

#[export] Instance float_PyFloat : PyFloat float := {|
  of_int := float_of_int;
  fadd := PrimFloat.add;
  fmul := PrimFloat.mul;
  fdiv := PrimFloat.div;
  fneg := PrimFloat.opp;
  flt := PrimFloat.ltb;
  truth := fun x => negb (PrimFloat.eqb x 0%float)
|}.

(** ** Hidden state: a variable or a nested tuple of hidden states *)

#[warnings="-register-all"]
Inductive hidden (H : Type) : Type :=
| Var (data : H) (history : bool)
| Tuple (hs : list (hidden H)).

Fixpoint repackage_hidden {H} (h : hidden H) : hidden H :=
  match h with
  | Var d _ => Var d false
  | Tuple hs => Tuple (map repackage_hidden hs)
  end.

(** ** State and exceptions

    A statement of the script transforms the program state and either
    completes or raises; a raise keeps the state reached so far (what
    was written to disk or mutated in place stays so). *)

Inductive outcome (S A : Type) : Type :=
| Done (a : A) (s : S)
| Abort (e : exn) (s : S).

Arguments Done {S A} a s.
Arguments Abort {S A} e s.

Definition M (S A : Type) : Type := S -> outcome S A.

Definition ret {S A} (a : A) : M S A := fun s => Done a s.
Definition raise {S A} (e : exn) : M S A := fun s => Abort e s.
Definition bind {S A B} (c : M S A) (k : A -> M S B) : M S B :=
  fun s => match c s with
           | Done a s' => k a s'
           | Abort e s' => Abort e s'
           end.
Definition get {S} : M S S := fun s => Done s s.
Definition modify {S} (f : S -> S) : M S unit := fun s => Done tt (f s).
Definition lift {S A} (r : result A) : M S A :=
  match r with
  | Ok a => ret a
  | Raise e => raise e
  end.

(** [try: c except e: h] *)
Definition try_except {S A} (c : M S A) (handles : exn -> bool) (h : M S A) : M S A :=
  fun s => match c s with
           | Done a s' => Done a s'
           | Abort e s' => if handles e then h s' else Abort e s'
           end.

Notation "x <~ c ;; k" := (bind c (fun x => k))
  (at level 100, c at next level, right associativity) : py_scope.
Notation "c ;;; k" := (bind c (fun _ => k))
  (at level 100, right associativity) : py_scope.

(** [for x in xs: l = body(x, l)] with the loop-carried locals [l] *)
Fixpoint for_each {S X L} (xs : list X) (body : X -> L -> M S L) (l : L) : M S L :=
  match xs with
  | [] => ret l
  | x :: xs' => l' <~ body x l ;; for_each xs' body l'
  end.

Definition outcome_state {S A} (o : outcome S A) : S :=
  match o with
  | Done _ s => s
  | Abort _ s => s
  end.

Definition is_KeyboardInterrupt (e : exn) : bool :=
  match e with
  | KeyboardInterrupt => true
  | _ => false
  end.

(** ** The driver

    The network (constructor, forward pass, loss computation), autograd
    and the few torch functions the driver calls are parameters of the
    development; exceptions raised inside them are not modelled. *)

Definition eval_batch_size : Z := 10.

Section Driver.

Context {R : Type} {num : PyFloat R}.

(** A float tensor: its sizes along the axes and its entries in
    row-major order. *)
Record ftensor : Type := {
  shape : list nat;
  entries : list R
}.

(** The same tensor with [f] applied to every entry. *)
Definition tmap (f : R -> R) (t : ftensor) : ftensor :=
  {| shape := shape t; entries := map f (entries t) |}.

(** [t.zero_()] and [t.mul_(c)] *)
Definition zero_ (t : ftensor) : ftensor := tmap (fun _ => of_int 0) t.
Definition mul_ (t : ftensor) (c : R) : ftensor := tmap (fun x => fmul x c) t.

Record parameter : Type := {
  requires_grad : bool;
  data : ftensor;
  grad : option ftensor          (* [None]: [p.grad is None] *)
}.

Definition set_data (p : parameter) (d : ftensor) : parameter :=
  {| requires_grad := requires_grad p; data := d; grad := grad p |}.
Definition set_grad (p : parameter) (g : option ftensor) : parameter :=
  {| requires_grad := requires_grad p; data := data p; grad := g |}.

(** What the network holds besides its parameters. *)
Variable B : Type.

Record module : Type := {
  named_parameters : list (string * parameter);
  training : bool;
  buffers : B
}.

Definition set_parameters (m : module) (ps : list (string * parameter)) : module :=
  {| named_parameters := ps; training := training m; buffers := buffers m |}.
Definition set_training (m : module) (b : bool) : module :=
  {| named_parameters := named_parameters m; training := b; buffers := buffers m |}.

(** The values of the parameters, in order. *)
Definition parameter_values (m : module) : list (string * ftensor) :=
  map (fun np => (fst np, data (snd np))) (named_parameters m).

(** *** The network and the libraries *)

Variables (H logits loss : Type).

(** Modelled from the spec: the network module (its constructor and
    layers are not among the sources) exposes [init_hidden] for a
    stream-count, a forward call from input and hidden state to logits
    and new hidden state, and a loss computation from logits and
    targets to cross entropy and center loss. The calls are given the
    network and return it, since the network is a stateful object.
    With it come the functions of autograd, [torch] and [math] that
    the driver calls, and the arrival of Ctrl-C. *)
Record Env : Type := {
  (** what initialising CUDA gives on this machine: [Ok tt] with a
      usable device, the exception of [torch.cuda] without one *)
  cuda_init : result unit;
  (** [model.init_hidden(bsz)] *)
  init_hidden : module -> Z -> hidden H;
  (** [model(data, hidden)] *)
  forward : module -> grid -> hidden H -> (logits * hidden H) * module;
  (** [model.calculate_loss_values(logits, targets)]: cross entropy
      and center loss *)
  calculate_loss_values : module -> logits -> tokens -> (loss * loss) * module;
  (** [x.data[0]] of a loss *)
  loss_data : loss -> R;
  (** [x + y] and [c * x] on losses *)
  loss_add : loss -> loss -> loss;
  loss_scale : R -> loss -> loss;
  (** [x.backward()] *)
  backward : loss -> module -> module;
  (** [output.view(-1, ntokens)] *)
  view_logits : logits -> Z -> logits;
  (** [nn.CrossEntropyLoss()(output_flat, targets).data] *)
  criterion : logits -> tokens -> R;
  (** the 2-norm of all gradients taken together and the constant
      1e-6 of [torch.nn.utils.clip_grad_norm] *)
  total_norm : list ftensor -> R;
  epsilon : R;
  (** [math.exp(x)], which raises [OverflowError] out of range *)
  math_exp : R -> result R;
  (** [len(corpus.dictionary)] *)
  ntokens : Z;
  (** Ctrl-C: [interrupted epoch batch] holds when the signal arrives
      as window [batch] of epoch [epoch] is about to be trained. *)
  interrupted : Z -> Z -> bool
}.

Variable env : Env.

(** *** [nn.Module] and [torch.nn.utils] *)

Definition map_parameters (f : parameter -> parameter) (m : module) : module :=
  set_parameters m (map (fun np => (fst np, f (snd np))) (named_parameters m)).

(** [model.zero_grad()]: every gradient that exists becomes zero. *)
Definition zero_grad (m : module) : module :=
  map_parameters (fun p => set_grad p (option_map zero_ (grad p))) m.

(** [model.eval()] and [model.train()] *)
Definition module_eval (m : module) : module := set_training m false.
Definition module_train (m : module) : module := set_training m true.

(** [clip_grad_norm(model.parameters(), max_norm)] *)
Definition clip_grad_norm (m : module) (max_norm : R) : module :=
  let grads :=
    flat_map (fun np => match grad (snd np) with
                        | Some g => [g]
                        | None => []
                        end) (named_parameters m) in
  let clip_coef := fdiv max_norm (fadd (total_norm env grads) (epsilon env)) in
  if flt clip_coef (of_int 1)
  then map_parameters
         (fun p => set_grad p (option_map (fun g => mul_ g clip_coef) (grad p))) m
  else m.

(** [x.add_(value, other)]: [x + value * other] entry by entry, in
    place, with [other] expanded to the sizes of [x]; it raises when
    [other] cannot be expanded to them. *)
Definition add_ (x : ftensor) (value : R) (other : ftensor) : result ftensor :=
  if Tensor.expandable (shape other) (shape x)
  then
    let o := Tensor.expand (Tensor.pad_size (shape other) (shape x)) (shape x)
                           (entries other) in
    Ok {| shape := shape x;
          entries := map (fun xg => fadd (fst xg) (fmul value (snd xg)))
                         (combine (entries x) o) |}
  else Raise RuntimeError.

(** The update loop of [train]:
<<
    for name,p in model.named_parameters():
        if p.requires_grad:
            p.data.add_(-lr, p.grad.data)
>>
    The parameters are updated in place, one after the other; when
    an update raises, those before it stay updated. *)
Fixpoint sgd_update (lr : R) (ps : list (string * parameter))
  : list (string * parameter) * result unit :=
  match ps with
  | [] => ([], Ok tt)
  | (name, p) :: rest =>
      if requires_grad p then
        match grad p with
        | None => (ps, Raise AttributeError)
        | Some g =>
            match add_ (data p) (fneg lr) g with
            | Raise e => (ps, Raise e)
            | Ok d =>
                let (rest', r) := sgd_update lr rest in
                ((name, set_data p d) :: rest', r)
            end
        end
      else
        let (rest', r) := sgd_update lr rest in
        ((name, p) :: rest', r)
  end.

(** *** Program state *)

Record args : Type := {
  args_lr : R;
  args_clip : R;
  args_epochs : Z;
  args_batch_size : Z;
  args_bptt : Z;
  args_cuda : bool;
  args_log_interval : Z;
  args_LAMBDA : R
}.

Record corpus : Type := {
  corpus_train : tokens;
  corpus_valid : tokens;
  corpus_test : tokens
}.

(** One entry of each of the four series of [train_metrics], which
    grow together. *)
Record train_row : Type := {
  row_train_loss : R;
  row_center_loss : R;
  row_cross_entropy : R;
  row_perplexity : R
}.

(** What is printed, by values. *)
Inductive line : Type :=
| ProgressLine (epoch batch nbatches : Z) (lr cur_loss ppl : R)
| WindowLine (train_loss center_loss cross_entropy perplexity : R)
| EpochLine (epoch : Z) (val_loss val_ppl : R)
| Dashes
| Equals
| ExitingEarly
| TestLine (test_loss test_ppl : R).

Record globals : Type := {
  model : module;
  lr : R;
  best_val_loss : option R;
  train_metrics : list train_row;
  eval_metrics : list (R * R);
  test_metrics : list (R * R);
  model_pt : option module;       (* the file at [model_path], if any *)
  saves : list Z;                 (* the epochs at which it was written *)
  stdout : list line
}.

Definition with_model (m : module) (g : globals) : globals :=
  {| model := m; lr := lr g; best_val_loss := best_val_loss g;
     train_metrics := train_metrics g; eval_metrics := eval_metrics g;
     test_metrics := test_metrics g; model_pt := model_pt g;
     saves := saves g; stdout := stdout g |}.
Definition with_lr (x : R) (g : globals) : globals :=
  {| model := model g; lr := x; best_val_loss := best_val_loss g;
     train_metrics := train_metrics g; eval_metrics := eval_metrics g;
     test_metrics := test_metrics g; model_pt := model_pt g;
     saves := saves g; stdout := stdout g |}.
Definition with_best_val_loss (x : option R) (g : globals) : globals :=
  {| model := model g; lr := lr g; best_val_loss := x;
     train_metrics := train_metrics g; eval_metrics := eval_metrics g;
     test_metrics := test_metrics g; model_pt := model_pt g;
     saves := saves g; stdout := stdout g |}.
Definition append_train_metrics (r : train_row) (g : globals) : globals :=
  {| model := model g; lr := lr g; best_val_loss := best_val_loss g;
     train_metrics := train_metrics g ++ [r]; eval_metrics := eval_metrics g;
     test_metrics := test_metrics g; model_pt := model_pt g;
     saves := saves g; stdout := stdout g |}.
Definition append_eval_metrics (r : R * R) (g : globals) : globals :=
  {| model := model g; lr := lr g; best_val_loss := best_val_loss g;
     train_metrics := train_metrics g; eval_metrics := eval_metrics g ++ [r];
     test_metrics := test_metrics g; model_pt := model_pt g;
     saves := saves g; stdout := stdout g |}.
Definition append_test_metrics (r : R * R) (g : globals) : globals :=
  {| model := model g; lr := lr g; best_val_loss := best_val_loss g;
     train_metrics := train_metrics g; eval_metrics := eval_metrics g;
     test_metrics := test_metrics g ++ [r]; model_pt := model_pt g;
     saves := saves g; stdout := stdout g |}.
(** [torch.save(model, f)] on the file at [model_path], during [epoch] *)
Definition torch_save (epoch : Z) (g : globals) : globals :=
  {| model := model g; lr := lr g; best_val_loss := best_val_loss g;
     train_metrics := train_metrics g; eval_metrics := eval_metrics g;
     test_metrics := test_metrics g; model_pt := Some (model g);
     saves := saves g ++ [epoch]; stdout := stdout g |}.
Definition print (l : line) (g : globals) : globals :=
  {| model := model g; lr := lr g; best_val_loss := best_val_loss g;
     train_metrics := train_metrics g; eval_metrics := eval_metrics g;
     test_metrics := test_metrics g; model_pt := model_pt g;
     saves := saves g; stdout := stdout g ++ [l] |}.

(** A method of the network run on the global [model]. *)
Definition call {A} (f : module -> A * module) : M globals A :=
  fun g => let (a, m) := f (model g) in Done a (with_model m g).

Definition on_model (f : module -> module) : M globals unit :=
  modify (fun g => with_model (f (model g)) g).

(** *** Evaluation: [evaluate] *)

(** [total_loss] of [evaluate]: the integer it starts as, or the
    one-entry float tensor it becomes once a loss has been added. *)
Inductive accum : Type :=
| PyInt (z : Z)
| FloatTensor (x : R).

(** [total_loss + t] for a float tensor [t] *)
Definition accum_add (total_loss : accum) (t : R) : accum :=
  match total_loss with
  | PyInt z => FloatTensor (fadd (of_int z) t)
  | FloatTensor x => FloatTensor (fadd x t)
  end.

(** [total_loss[0]] *)
Definition accum_item (total_loss : accum) : result R :=
  match total_loss with
  | PyInt _ => Raise TypeError
  | FloatTensor x => Ok x
  end.

Definition evaluate_window (a : args) (data_source : grid)
    (i : Z) (loc : accum * hidden H) : M globals (accum * hidden H) :=
  let (total_loss, hidden) := loc in
  let (data, targets) := get_batch (args_bptt a) data_source i in
  oh <~ call (fun m => forward env m data hidden) ;;
  let (output, hidden) := oh in
  let output_flat := view_logits env output (ntokens env) in
  let total_loss :=
    accum_add total_loss (fmul (of_int (Py.len data)) (criterion env output_flat targets)) in
  let hidden := repackage_hidden hidden in
  ret (total_loss, hidden).

Definition evaluate (a : args) (data_source : grid) : M globals R :=
  (* Turn on evaluation mode which disables dropout. *)
  on_model module_eval ;;;
  let total_loss := PyInt 0 in
  g <~ get ;;
  let hidden := init_hidden env (model g) eval_batch_size in
  offsets <~ lift (window_offsets (args_bptt a) data_source) ;;
  loc <~ for_each offsets (evaluate_window a data_source) (total_loss, hidden) ;;
  x <~ lift (accum_item (fst loc)) ;;
  ret (fdiv x (of_int (Py.len data_source))).

(** *** Training: [train] *)

Definition sgd_step : M globals unit :=
  fun g =>
    let (ps, r) := sgd_update (lr g) (named_parameters (model g)) in
    let g' := with_model (set_parameters (model g) ps) g in
    match r with
    | Ok _ => Done tt g'
    | Raise e => Abort e g'
    end.

(** [train_loss] of a window: the cross entropy, plus the weighted
    center loss when the weight is positive *)
Definition combined_loss (a : args) (loss_values : loss * loss) : loss :=
  let cross_entropy_loss := fst loss_values in
  let center_loss := snd loss_values in
  let center_loss_factor := args_LAMBDA a in
  if flt (of_int 0) center_loss_factor
  then loss_add env cross_entropy_loss (loss_scale env center_loss_factor center_loss)
  else cross_entropy_loss.

(** The body of the loop of [train], lines 130-159: one window from
    the batch to the parameter update. It returns the new hidden
    state and the four values recorded for the window. *)
Definition train_window_step (a : args) (train_data : grid) (epoch batch i : Z)
    (h : hidden H) : M globals (hidden H * train_row) :=
  (if interrupted env epoch batch then raise KeyboardInterrupt else ret tt) ;;;
  let (data, targets) := get_batch (args_bptt a) train_data i in
  (* Starting each batch, we detach the hidden state from how it was
     previously produced. *)
  let hidden := repackage_hidden h in
  on_model zero_grad ;;;
  lh <~ call (fun m => forward env m data hidden) ;;
  let (logits, hidden) := lh in
  loss_values <~ call (fun m => calculate_loss_values env m logits targets) ;;
  let cross_entropy_val := loss_data env (fst loss_values) in
  let center_loss_val := loss_data env (snd loss_values) in
  let train_loss := combined_loss a loss_values in
  on_model (backward env train_loss) ;;;
  let train_loss_val := loss_data env train_loss in
  perplexity_val <~ lift (math_exp env cross_entropy_val) ;;
  let row := {| row_train_loss := train_loss_val;
                row_center_loss := center_loss_val;
                row_cross_entropy := cross_entropy_val;
                row_perplexity := perplexity_val |} in
  modify (append_train_metrics row) ;;;
  (* clip_grad_norm helps prevent the exploding gradient problem *)
  on_model (fun m => clip_grad_norm m (args_clip a)) ;;;
  sgd_step ;;;
  ret (hidden, row).

(** The rest of the body, lines 161-175: the running loss and the
    progress lines. It returns the running loss for the next window.
    The timer ([start_time], [elapsed]) reads the clock and is left
    out. *)
Definition train_window_log (a : args) (train_data : grid) (epoch batch : Z)
    (total_loss : R) (row : train_row) : M globals R :=
  let total_loss := fadd total_loss (row_cross_entropy row) in
  r <~ lift (Py.modulo batch (args_log_interval a)) ;;
  if (r =? 0) && (0 <? batch) then
    let cur_loss := fdiv total_loss (of_int (args_log_interval a)) in
    nbatches <~ lift (Py.floordiv (Py.len train_data) (args_bptt a)) ;;
    ppl <~ lift (math_exp env cur_loss) ;;
    g <~ get ;;
    modify (print (ProgressLine epoch batch nbatches (lr g) cur_loss ppl)) ;;;
    modify (print (WindowLine (row_train_loss row) (row_center_loss row)
                              (row_cross_entropy row) (row_perplexity row))) ;;;
    ret (of_int 0)
  else
    ret total_loss.

Definition train_window (a : args) (train_data : grid) (epoch : Z)
    (bi : Z * Z) (loc : R * hidden H) : M globals (R * hidden H) :=
  let (batch, i) := bi in
  let (total_loss, hidden) := loc in
  hr <~ train_window_step a train_data epoch batch i hidden ;;
  total_loss <~ train_window_log a train_data epoch batch total_loss (snd hr) ;;
  ret (total_loss, fst hr).

Definition train (a : args) (train_data : grid) (epoch : Z) : M globals unit :=
  (* Turn on training mode which enables dropout. *)
  on_model module_train ;;;
  let total_loss := of_int 0 in
  g <~ get ;;
  let hidden := init_hidden env (model g) (args_batch_size a) in
  offsets <~ lift (window_offsets (args_bptt a) train_data) ;;
  for_each (Py.enumerate offsets) (train_window a train_data epoch)
           (total_loss, hidden) ;;;
  ret tt.

(** *** Loop over epochs *)

(** [not best_val_loss] *)
Definition not_ (best_val_loss : option R) : bool :=
  match best_val_loss with
  | None => true
  | Some b => negb (truth b)
  end.

(** [val_loss < best_val_loss], reached only when [best_val_loss] is a number *)
Definition lt_ (val_loss : R) (best_val_loss : option R) : bool :=
  match best_val_loss with
  | None => false
  | Some b => flt val_loss b
  end.

(** Lines 196-202: save the model or anneal the learning rate. *)
Definition save_or_anneal (epoch : Z) (val_loss : R) : M globals unit :=
  g <~ get ;;
  if not_ (best_val_loss g) || lt_ val_loss (best_val_loss g) then
    modify (torch_save epoch) ;;;
    modify (with_best_val_loss (Some val_loss))
  else
    (* Anneal the learning rate if no improvement has been seen in
       the validation dataset. *)
    modify (fun g => with_lr (fdiv (lr g) (of_int 4)) g).

(** The body of the loop over epochs, without its timer and without
    the two metrics tables it writes at the end. *)
Definition epoch_body (a : args) (train_data val_data : grid)
    (epoch : Z) (_ : unit) : M globals unit :=
  train a train_data epoch ;;;
  val_loss <~ evaluate a val_data ;;
  val_perplexity <~ lift (math_exp env val_loss) ;;
  modify (append_eval_metrics (val_loss, val_perplexity)) ;;;
  modify (print Dashes) ;;;
  modify (print (EpochLine epoch val_loss val_perplexity)) ;;;
  modify (print Dashes) ;;;
  (* Save the model if the validation loss is the best we've seen so far. *)
  save_or_anneal epoch val_loss.

(** The [try] statement: at any point Ctrl-C breaks out of training early. *)
Definition epoch_loop (a : args) (train_data val_data : grid) : M globals unit :=
  try_except
    (epochs <~ lift (Py.range 1 (args_epochs a + 1) 1) ;;
     for_each epochs (epoch_body a train_data val_data) tt)
    is_KeyboardInterrupt
    (modify (print Dashes) ;;;
     modify (print ExitingEarly)).


(** [torch.load(f)] of a saved network: a pickled parameter is its
    data and its [requires_grad] flag, so the parameters come back
    without gradients. *)
Definition torch_load (m : module) : module :=
  map_parameters (fun p => set_grad p None) m.

(** Load the best saved model: [open(model_path, 'rb')] and [torch.load]. *)
Definition load_best : M globals unit :=
  fun g => match model_pt g with
           | Some m => Done tt (with_model (torch_load m) g)
           | None => Abort FileNotFoundError g
           end.

(** Run on test data. *)
Definition final_test (a : args) (test_data : grid) : M globals R :=
  load_best ;;;
  test_loss <~ evaluate a test_data ;;
  test_perplexity <~ lift (math_exp env test_loss) ;;
  modify (print Equals) ;;;
  modify (print (TestLine test_loss test_perplexity)) ;;;
  modify (print Equals) ;;;
  modify (append_test_metrics (test_loss, test_perplexity)) ;;;
  ret test_loss.

(** The three streams of the script. *)
Definition train_data (a : args) (c : corpus) : result grid :=
  batchify (cuda_init env) (args_cuda a) (corpus_train c) (args_batch_size a).
Definition val_data (a : args) (c : corpus) : result grid :=
  batchify (cuda_init env) (args_cuda a) (corpus_valid c) eval_batch_size.
Definition test_data (a : args) (c : corpus) : result grid :=
  batchify (cuda_init env) (args_cuda a) (corpus_test c) eval_batch_size.

(** The state in which the epoch loop starts: the result directory
    was created by the script itself, so no checkpoint exists. *)
Definition initial (a : args) (model0 : module) : globals :=
  {| model := model0; lr := args_lr a; best_val_loss := None;
     train_metrics := []; eval_metrics := []; test_metrics := [];
     model_pt := None; saves := []; stdout := [] |}.

(** The script from the epoch loop on, and as a whole ([model0] is
    the freshly built network). Writing the metrics tables is left
    out. *)
Definition run (a : args) (train_data val_data test_data : grid) : M globals R :=
  epoch_loop a train_data val_data ;;;
  final_test a test_data.

Definition main (a : args) (c : corpus) (model0 : module) : result (outcome globals R) :=
  train_data <- train_data a c ;;
  val_data <- val_data a c ;;
  test_data <- test_data a c ;;
  Ok (run a train_data val_data test_data (initial a model0)).

End Driver.

Arguments ftensor : clear implicits.
Arguments parameter : clear implicits.
Arguments module : clear implicits.
Arguments Env : clear implicits.
Arguments args : clear implicits.
Arguments train_row : clear implicits.
Arguments line : clear implicits.
Arguments globals : clear implicits.
Arguments accum : clear implicits.

(** ** A small world to run the driver in

    Python floats for numbers, and a network with one weight whose
    only memory is the number of windows it was trained on: its
    training loss is always 3.0 and, after [k] training windows, the
    evaluation criterion returns the [k]-th entry of [ces]. *)

Module Toy.

Open Scope float_scope.

Definition weights : list (string * parameter float) :=
  [("w"%string,
    {| requires_grad := true;
       data := {| shape := [2%nat]; entries := [1.0; 2.0] |};
       grad := None |})].

Definition model0 : module float nat :=
  {| named_parameters := weights; training := true; buffers := 0%nat |}.

Definition trained_on (m : module float nat) (k : nat) : module float nat :=
  {| named_parameters := named_parameters m; training := training m; buffers := k |}.

Definition env (ces : list float) (exp : float -> float)
    (interrupted : Z -> Z -> bool) : Env float nat unit nat float :=
  {| cuda_init := Ok tt;
     init_hidden := fun _ _ => Var tt false;
     forward := fun m _ h => ((buffers m, h), m);
     calculate_loss_values :=
       fun m _ _ => ((3.0, 0.0), trained_on m (S (buffers m)));
     loss_data := fun x => x;
     loss_add := PrimFloat.add;
     loss_scale := PrimFloat.mul;
     backward :=
       fun _ m => map_parameters
                    (fun p => set_grad p (Some (tmap (fun _ => 0.5) (data p)))) m;
     view_logits := fun l _ => l;
     criterion := fun l _ => nth (Nat.pred l) ces 0.0;
     total_norm := fun _ => 1.0;
     epsilon := 0.0;
     math_exp := fun x => Ok (exp x);
     ntokens := 10%Z;
     interrupted := interrupted |}.

Definition never : Z -> Z -> bool := fun _ _ => false.

(** A network with a second trainable weight that its loss does not
    depend on, and the same world with a [backward] that reaches the
    weight ["w"] only: the other weight is left without a gradient. *)
Definition model1 : module float nat :=
  {| named_parameters :=
       weights ++
       [("unused"%string,
         {| requires_grad := true;
            data := {| shape := [1%nat]; entries := [7.0] |};
            grad := None |})];
     training := true;
     buffers := 0%nat |}.

Definition reaching_w (e : Env float nat unit nat float) : Env float nat unit nat float :=
  {| cuda_init := cuda_init e;
     init_hidden := init_hidden e;
     forward := forward e;
     calculate_loss_values := calculate_loss_values e;
     loss_data := loss_data e;
     loss_add := loss_add e;
     loss_scale := loss_scale e;
     backward :=
       fun _ m =>
         set_parameters m
           (map (fun np => if String.eqb (fst np) "w"
                           then (fst np,
                                 set_grad (snd np)
                                          (Some (tmap (fun _ => 0.5) (data (snd np)))))
                           else np)
                (named_parameters m));
     view_logits := view_logits e;
     criterion := criterion e;
     total_norm := total_norm e;
     epsilon := epsilon e;
     math_exp := math_exp e;
     ntokens := ntokens e;
     interrupted := interrupted e |}.

(** Two steps of one stream: one window per pass. *)
Definition two_steps : grid := [[0%Z]; [1%Z]].

(** Two steps of ten streams, the width of the evaluation streams. *)
Definition ten_wide : grid :=
  [[0; 2; 4; 6; 8; 10; 12; 14; 16; 18]; [1; 3; 5; 7; 9; 11; 13; 15; 17; 19]]%Z.

(** One step of ten streams. *)
Definition one_step : grid := [[0; 1; 2; 3; 4; 5; 6; 7; 8; 9]]%Z.

(** A corpus whose splits batchify to [two_steps] (with one training
    stream), [ten_wide] and [ten_wide]. *)
Definition corpus0 : corpus :=
  {| corpus_train := [0; 1]%Z;
     corpus_valid := map Z.of_nat (seq 0 20);
     corpus_test := map Z.of_nat (seq 0 21) |}.

(** A corpus whose validation split has 15 tokens: one step of ten
    streams. *)
Definition corpus1 : corpus :=
  {| corpus_train := [0; 1]%Z;
     corpus_valid := map Z.of_nat (seq 0 15);
     corpus_test := map Z.of_nat (seq 0 20) |}.

(** Six steps of one stream: five windows of one step. *)
Definition six_steps : grid := [[0%Z]; [1%Z]; [2%Z]; [3%Z]; [4%Z]; [5%Z]].

(** Ctrl-C as the first window of the first epoch is about to be trained. *)
Definition at_first_window : Z -> Z -> bool :=
  fun epoch batch => (epoch =? 1)%Z && (batch =? 0)%Z.

(** Ctrl-C as the first window of the third epoch is about to be trained. *)
Definition in_third_epoch : Z -> Z -> bool :=
  fun epoch batch => (epoch =? 3)%Z && (batch =? 0)%Z.

Definition args1 (epochs log_interval bptt : Z) : args float :=
  {| args_lr := 20.0; args_clip := 0.25; args_epochs := epochs;
     args_batch_size := 1%Z; args_bptt := bptt; args_cuda := false;
     args_log_interval := log_interval; args_LAMBDA := 0.0 |}.

(** Windows of one step. *)
Definition args0 (epochs log_interval : Z) : args float :=
  args1 epochs log_interval 1.

End Toy.

(** ** Statements about the batchifier *)

(** The grid has [N // B] rows of [B] entries, entry [(r, c)] is entry
    [c * (N // B) + r] of the stream, an index below [B * (N // B)],
    and the grid is the same for every stream of the same length that
    agrees with this one below that index. Without [--cuda] the grid
    is what [batchify] returns; with [--cuda] it is what [batchify]
    hands to [.cuda()], which returns it where CUDA can be
    initialised and raises where it cannot. *)
Definition batchify_claim (cuda_init : result unit) (cuda : bool) (data : tokens) (B : Z)
  : Prop :=
  let N := Py.len data in
  exists g,
    batchify cuda_init cuda data B = (if cuda then Tensor.cuda cuda_init g else Ok g)
    /\ Py.len g = N / B
    /\ Forall (fun row => Py.len row = B) g
    /\ (forall r c, 0 <= r < N / B -> 0 <= c < B ->
          0 <= c * (N / B) + r < B * (N / B)
          /\ Tensor.cell g r c = Py.item 0 data (c * (N / B) + r))
    /\ (forall data',
          Py.len data' = N ->
          firstn (Z.to_nat (B * (N / B))) data' = firstn (Z.to_nat (B * (N / B))) data ->
          batchify cuda_init cuda data' B
          = (if cuda then Tensor.cuda cuda_init g else Ok g)).

(** The grid with [nbatch] rows and [bsz] columns read off [data]
    column by column. *)
Definition columns_of (data : tokens) (nbatch bsz : nat) : grid :=
  map (fun r => map (fun j => nth (j * nbatch + r) data 0) (seq 0 bsz)) (seq 0 nbatch).

(** ** Statements about windows *)

(** A grid all of whose rows have [B] entries. *)
Definition rectangular (B : Z) (g : grid) : Prop :=
  Forall (fun row => Py.len row = B) g.

(** What [get_batch] returns at offset [i] of a grid with [B] streams:
    the two slices for [L = min(bptt, steps remaining - 1)], of [L]
    steps and [L * B] positions each, the target one step after the
    input. *)
Definition get_batch_claim (bptt B : Z) (source : grid) (i : Z) : Prop :=
  let L := Z.min bptt (Py.len source - i - 1) in
  let input := fst (get_batch bptt source i) in
  let target := snd (get_batch bptt source i) in
  input = Py.slice source i (i + L)
  /\ target = Tensor.flatten (Py.slice source (i + 1) (i + 1 + L))
  /\ Py.len input = L
  /\ Py.len target = L * B
  /\ Py.len (Tensor.flatten input) = Py.len target
  /\ forall k c, 0 <= k < L -> 0 <= c < B ->
       Tensor.cell input k c = Tensor.cell source (i + k) c
       /\ Py.item 0 target (k * B + c) = Tensor.cell source (i + k + 1) c.

(** ** Statements about the evaluation loop *)

Section EvaluationStatements.

Context {R : Type} {num : PyFloat R} {B H logits loss : Type}.
Variable env : Env R B H logits loss.

(** The passes of the network over the windows at [offsets], the
    hidden state carried from one window to the next: for each window
    its length and its cross entropy, and at the end the hidden state
    and the network. *)
Fixpoint window_losses (bptt : Z) (source : grid) (offsets : list Z)
    (h : hidden H) (m : module R B) : list (Z * R) * (hidden H * module R B) :=
  match offsets with
  | [] => ([], (h, m))
  | i :: rest =>
      let L := Z.min bptt (Py.len source - i - 1) in
      let input := Py.slice source i (i + L) in
      let target := Tensor.flatten (Py.slice source (i + 1) (i + 1 + L)) in
      let out := forward env m input h in
      let cross_entropy :=
        criterion env (view_logits env (fst (fst out)) (ntokens env)) target in
      let later := window_losses bptt source rest
                                 (repackage_hidden (snd (fst out))) (snd out) in
      ((L, cross_entropy) :: fst later, snd later)
  end.

(** The sum over the windows of window length times cross entropy,
    taken in the order of the windows, starting from zero. *)
Definition weighted_sum (ls : list (Z * R)) : R :=
  fold_left (fun total lc => fadd total (fmul (of_int (fst lc)) (snd lc))) ls (of_int 0).

(** [evaluate] returns the weighted sum over the windows of the stream
    divided by the number of steps of the stream. *)
Definition evaluate_claim (a : args R) (data_source : grid) (g : globals R B) : Prop :=
  exists offsets g',
    window_offsets (args_bptt a) data_source = Ok offsets
    /\ evaluate env a data_source g =
       Done (fdiv (weighted_sum
                     (fst (window_losses (args_bptt a) data_source offsets
                             (init_hidden env (module_eval (model g)) eval_batch_size)
                             (module_eval (model g)))))
                  (of_int (Py.len data_source)))
            g'.

(** Modelled from the spec: the forward call of the network maps
    input and hidden state to logits and new hidden state; it reads
    the parameters and does not write them. *)
Definition forward_keeps_parameters : Prop :=
  forall m x h, parameter_values (snd (forward env m x h)) = parameter_values m.

(** [total_loss] of [evaluate] after windows of the given lengths and
    cross entropies. *)
Definition accum_total (total_loss : accum R) (ls : list (Z * R)) : accum R :=
  fold_left (fun t lc => accum_add t (fmul (of_int (fst lc)) (snd lc))) ls total_loss.

End EvaluationStatements.

(** ** Statements about the optimizer step *)

Section OptimizerStatements.

Context {R : Type} {num : PyFloat R} {B H logits loss : Type}.
Variable env : Env R B H logits loss.

(** [x - lr * g], computed as [add_] does: [x + (-lr) * g]. *)
Definition descend (lr x g : R) : R := fadd x (fmul (fneg lr) g).

(** The rule of the update, between a parameter [p] before the update
    and [p'] after it: a trainable parameter with a gradient moves
    against the gradient, entry by entry; a parameter with no gradient,
    and a parameter that is not trainable, is skipped. Flag, gradient
    and sizes stay. *)
Definition sgd_rule (lr : R) (p p' : parameter R) : Prop :=
  requires_grad p' = requires_grad p
  /\ grad p' = grad p
  /\ shape (data p') = shape (data p)
  /\ entries (data p') =
     match requires_grad p, grad p with
     | true, Some g => map (fun xg => descend lr (fst xg) (snd xg))
                           (combine (entries (data p)) (entries g))
     | _, _ => entries (data p)
     end.

(** A trainable parameter has a gradient, a tensor of the sizes of the
    parameter: what the backward pass leaves behind for a parameter
    the loss depends on. *)
Definition has_gradient (p : parameter R) : Prop :=
  requires_grad p = true ->
  exists g, grad p = Some g
            /\ shape g = shape (data p)
            /\ length (entries g) = Tensor.numel (shape g).

(** Sizes [from] broadcast to sizes [to]: [to] has at least as many
    axes and, counting axes from the last one, every size of [from]
    is the size of [to] or 1. *)
Definition broadcasts_to (from to : list nat) : Prop :=
  (length from <= length to)%nat
  /\ forall k, (k < length from)%nat ->
       nth k (rev from) 1%nat = nth k (rev to) 1%nat \/ nth k (rev from) 1%nat = 1%nat.

(** A trainable parameter has a gradient whose sizes broadcast to the
    sizes of the parameter. *)
Definition can_update (p : parameter R) : Prop :=
  requires_grad p = true ->
  exists g, grad p = Some g /\ broadcasts_to (shape g) (shape (data p)).

(** Every gradient of the network is zero. *)
Definition gradients_zero (m : module R B) : Prop :=
  Forall (fun np => forall g, grad (snd np) = Some g ->
                    Forall (fun x => x = of_int 0) (entries g))
         (named_parameters m).

(** The network as the forward pass of a training window finds it,
    as [backward] leaves it, and as [clip_grad_norm] leaves it. *)
Definition model_at_forward (g : globals R B) : module R B := zero_grad (model g).

Definition model_after_backward (a : args R) (train_data : grid) (i : Z)
    (h : hidden H) (g : globals R B) : module R B :=
  let batch := get_batch (args_bptt a) train_data i in
  let out := forward env (model_at_forward g) (fst batch) (repackage_hidden h) in
  let lv := calculate_loss_values env (snd out) (fst (fst out)) (snd batch) in
  backward env (combined_loss env a (fst lv)) (snd lv).

Definition model_after_clip (a : args R) (train_data : grid) (i : Z)
    (h : hidden H) (g : globals R B) : module R B :=
  clip_grad_norm env (model_after_backward a train_data i h g) (args_clip a).

(** The cross entropy of the window, as a number. *)
Definition window_cross_entropy (a : args R) (train_data : grid) (i : Z)
    (h : hidden H) (g : globals R B) : R :=
  let batch := get_batch (args_bptt a) train_data i in
  let out := forward env (model_at_forward g) (fst batch) (repackage_hidden h) in
  let lv := calculate_loss_values env (snd out) (fst (fst out)) (snd batch) in
  loss_data env (fst (fst lv)).

(** A training window zeroes the gradients before its forward pass
    without touching the parameters, and ends with the parameters of
    the clipped network, in their order and under their names, each
    updated by the rule. *)
Definition optimizer_step_claim (a : args R) (train_data : grid) (epoch batch i : Z)
    (h : hidden H) (g : globals R B) : Prop :=
  gradients_zero (model_at_forward g)
  /\ parameter_values (model_at_forward g) = parameter_values (model g)
  /\ exists r g',
       train_window_step env a train_data epoch batch i h g = Done r g'
       /\ lr g' = lr g
       /\ Forall2 (fun np np' => fst np' = fst np /\ sgd_rule (lr g) (snd np) (snd np'))
                  (named_parameters (model_after_clip a train_data i h g))
                  (named_parameters (model g')).

End OptimizerStatements.

(** ** Statements about the configuration *)

Section ConfigurationStatements.

Context {R : Type} {num : PyFloat R} {B H logits loss : Type}.

(** The same options with another [--batch-size]. *)
Definition with_batch_size (bsz : Z) (a : args R) : args R :=
  {| args_lr := args_lr a; args_clip := args_clip a; args_epochs := args_epochs a;
     args_batch_size := bsz; args_bptt := args_bptt a; args_cuda := args_cuda a;
     args_log_interval := args_log_interval a; args_LAMBDA := args_LAMBDA a |}.

(** The same world with another [init_hidden]. *)
Definition with_init_hidden (f : module R B -> Z -> hidden H)
    (env : Env R B H logits loss) : Env R B H logits loss :=
  {| cuda_init := cuda_init env;
     init_hidden := f;
     forward := forward env;
     calculate_loss_values := calculate_loss_values env;
     loss_data := loss_data env;
     loss_add := loss_add env;
     loss_scale := loss_scale env;
     backward := backward env;
     view_logits := view_logits env;
     criterion := criterion env;
     total_norm := total_norm env;
     epsilon := epsilon env;
     math_exp := math_exp env;
     ntokens := ntokens env;
     interrupted := interrupted env |}.

(** A grid made of a stream with [B] parallel streams: [len // B]
    steps of [B] entries each, stream [c] holding the tokens from
    [c * steps] on. *)
Definition batchified_by (B : Z) (stream : tokens) (g : grid) : Prop :=
  Py.len g = Py.len stream / B
  /\ rectangular B g
  /\ forall r c, 0 <= r < Py.len g -> 0 <= c < B ->
       Tensor.cell g r c = Py.item 0 stream (c * Py.len g + r).

(** [evaluate] returns the weighted average of the losses of the
    passes that start from the hidden state [h0]. *)
Definition evaluate_from (env : Env R B H logits loss) (a : args R) (data_source : grid)
    (g : globals R B) (h0 : hidden H) : Prop :=
  exists offsets g',
    window_offsets (args_bptt a) data_source = Ok offsets
    /\ evaluate env a data_source g =
       Done (fdiv (weighted_sum
                     (fst (window_losses env (args_bptt a) data_source offsets h0
                                         (module_eval (model g)))))
                  (of_int (Py.len data_source)))
            g'.

(** Whatever [--batch-size] is, here [bsz]: the validation and test
    streams are made with 10 parallel streams and do not change with
    it, the training stream is made with [bsz] parallel streams, and
    [evaluate] starts from the hidden state that [init_hidden] gives
    for 10 streams. (With [--cuda] the grids go through [.cuda()].) *)
Definition stream_count_claim (env : Env R B H logits loss) (a : args R) (c : corpus)
    (bsz : Z) (data_source : grid) (g : globals R B) : Prop :=
  let a' := with_batch_size bsz a in
  let moved (x : grid) := if args_cuda a then Tensor.cuda (cuda_init env) x else Ok x in
  (exists v, val_data env a' c = moved v /\ batchified_by 10 (corpus_valid c) v)
  /\ (exists t, test_data env a' c = moved t /\ batchified_by 10 (corpus_test c) t)
  /\ val_data env a' c = val_data env a c
  /\ test_data env a' c = test_data env a c
  /\ (0 < bsz -> exists t, train_data env a' c = moved t
                           /\ batchified_by bsz (corpus_train c) t)
  /\ evaluate_from env a' data_source g (init_hidden env (module_eval (model g)) 10).

End ConfigurationStatements.

(** ** Statements about a whole run *)

Section RunStatements.

Context {R : Type} {num : PyFloat R} {B H logits loss : Type}.
Variable env : Env R B H logits loss.

(** A row of [train_metrics] as a training window writes it: the
    values of the two losses of some loss computation, the value of
    their combination, and the exponential of the cross entropy. *)
Definition window_row (a : args R) (row : train_row R) : Prop :=
  exists lv : loss * loss,
    row_cross_entropy row = loss_data env (fst lv)
    /\ row_center_loss row = loss_data env (snd lv)
    /\ row_train_loss row = loss_data env (combined_loss env a lv)
    /\ math_exp env (row_cross_entropy row) = Ok (row_perplexity row).

(** Two states that differ at most in the network. *)
Definition only_model (g s : globals R B) : Prop :=
  lr s = lr g
  /\ best_val_loss s = best_val_loss g
  /\ train_metrics s = train_metrics g
  /\ eval_metrics s = eval_metrics g
  /\ test_metrics s = test_metrics g
  /\ model_pt s = model_pt g
  /\ saves s = saves g
  /\ stdout s = stdout g.

(** What training may do to a state besides changing the network:
    append rows to [train_metrics] and lines to the output. *)
Definition training_effect (a : args R) (g s : globals R B) : Prop :=
  lr s = lr g
  /\ best_val_loss s = best_val_loss g
  /\ eval_metrics s = eval_metrics g
  /\ test_metrics s = test_metrics g
  /\ model_pt s = model_pt g
  /\ saves s = saves g
  /\ (exists rows, train_metrics s = train_metrics g ++ rows /\ Forall (window_row a) rows)
  /\ (exists lines, stdout s = stdout g ++ lines).

(** [lr /= 4.0] *)
Definition anneal (x : R) : R := fdiv x (of_int 4).

(** How checkpoint, best loss and learning rate stand to the record of
    the epochs evaluated so far. *)
Definition checkpoint_invariant (a : args R) (g : globals R B) : Prop :=
  (length (saves g) <= length (eval_metrics g))%nat
  /\ (saves g = [] <-> eval_metrics g = [])
  /\ (model_pt g = None <-> saves g = [])
  /\ (best_val_loss g = None <-> saves g = [])
  /\ lr g = Nat.iter (length (eval_metrics g) - length (saves g)) anneal (args_lr a)
  /\ (forall v, best_val_loss g = Some v -> In v (map fst (eval_metrics g))).

(** Every perplexity on record is the exponential of the loss recorded
    with it. *)
Definition metrics_consistent (a : args R) (g : globals R B) : Prop :=
  Forall (window_row a) (train_metrics g)
  /\ Forall (fun lp => math_exp env (fst lp) = Ok (snd lp)) (eval_metrics g)
  /\ Forall (fun lp => math_exp env (fst lp) = Ok (snd lp)) (test_metrics g).

(** Both together. *)
Definition run_invariants (a : args R) (g : globals R B) : Prop :=
  checkpoint_invariant a g /\ metrics_consistent a g.

End RunStatements.

(** The sum of a list of integers. *)
Definition zsum (l : list Z) : Z := fold_right Z.add 0 l.

(** The script reaches the epoch loop. *)
Definition reaches_epoch_loop {R} {num : PyFloat R} {B H logits loss : Type}
    (env : Env R B H logits loss) (a : args R) (c : corpus) (model0 : module R B) : Prop :=
  exists o, main env a c model0 = Ok o.

(** ** Statements about hidden states *)

(** The nesting of a hidden state, without its contents. *)
Fixpoint skeleton {H} (h : hidden H) : hidden unit :=
  match h with
  | Var _ _ => Var tt false
  | Tuple hs => Tuple (map skeleton hs)
  end.

(** The variables of a hidden state, from left to right: their data
    and whether they carry a history. *)
Fixpoint leaves {H} (h : hidden H) : list (H * bool) :=
  match h with
  | Var d history => [(d, history)]
  | Tuple hs => concat (map leaves hs)
  end.

(** * Properties *)

(** ** Small runs *)

Example batchify_7_3 :
  batchify (Ok tt) false [10; 11; 12; 13; 14; 15; 16] 3 = Ok [[10; 12; 14]; [11; 13; 15]].
Proof. reflexivity. Qed.

Example get_batch_last :
  get_batch 2 [[0]; [1]; [2]; [3]] 2 = ([[2]], [3]).
Proof. reflexivity. Qed.

Example window_offsets_4 :
  window_offsets 2 [[0]; [1]; [2]; [3]] = Ok [0; 2].
Proof. reflexivity. Qed.

(** ** Lists and slices *)

Lemma len_nonneg {A} (l : list A) : 0 <= Py.len l.
Proof. unfold Py.len. lia. Qed.

Lemma len_firstn {A} (l : list A) (n : Z) :
  0 <= n <= Py.len l -> Py.len (firstn (Z.to_nat n) l) = n.
Proof. unfold Py.len. intros Hn. rewrite length_firstn. lia. Qed.

Lemma item_nth {A} (d : A) (l : list A) (k : Z) :
  0 <= k -> Py.item d l k = nth (Z.to_nat k) l d.
Proof.
  intros Hk. unfold Py.item.
  destruct (k <? 0) eqn:E; [apply Z.ltb_lt in E; lia | reflexivity].
Qed.

(** ** Chunks of a list *)

Lemma firstn_plus {A} (a b : nat) (l : list A) :
  firstn (a + b) l = firstn a l ++ firstn b (skipn a l).
Proof.
  revert l. induction a as [|a IH]; intros l; [reflexivity|].
  destruct l as [|x l]; cbn; [now rewrite firstn_nil|].
  now rewrite IH.
Qed.

(** Consecutive chunks of [b] entries, laid end to end, are the list
    up to where the chunks stop. *)
Lemma concat_chunks {A} (b : nat) (l : list A) (n : nat) :
  concat (map (fun k => firstn b (skipn (k * b) l)) (seq 0 n)) = firstn (n * b) l.
Proof.
  induction n as [|n IH]; [reflexivity|].
  rewrite seq_S, map_app, concat_app, IH. cbn [map concat Nat.add].
  rewrite app_nil_r. replace (S n * b)%nat with (n * b + b)%nat by lia.
  now rewrite firstn_plus.
Qed.

Lemma firstn_skipn_nth {A} (d : A) (k n : nat) (l : list A) :
  (k + n <= length l)%nat ->
  firstn n (skipn k l) = map (fun r => nth (k + r) l d) (seq 0 n).
Proof.
  intros Hlen.
  apply (nth_ext _ _ d (nth (k + 0) l d)).
  - rewrite length_firstn, length_skipn, length_map, length_seq. lia.
  - intros i Hi. rewrite length_firstn, length_skipn in Hi.
    rewrite nth_firstn, nth_skipn.
    replace (i <? n)%nat with true by (symmetry; apply Nat.ltb_lt; lia).
    rewrite (map_nth (fun r => nth (k + r) l d) (seq 0 n) 0%nat).
    now rewrite seq_nth by lia.
Qed.

(** ** The batchifier *)

Lemma narrow_prefix {A} (t : list A) (n : Z) :
  0 <= n <= Py.len t -> Tensor.narrow t 0 n = Ok (firstn (Z.to_nat n) t).
Proof.
  intros Hn. pose proof (len_nonneg t) as Ht. unfold Tensor.narrow.
  destruct (n <? 0) eqn:E1; [apply Z.ltb_lt in E1; lia|].
  destruct (0 <? - Py.len t) eqn:E2; [apply Z.ltb_lt in E2; lia|].
  destruct (Py.len t <? 0) eqn:E3; [apply Z.ltb_lt in E3; lia|].
  cbn [orb Z.ltb Z.compare].
  destruct (0 + n <=? Py.len t) eqn:E4; [reflexivity | apply Z.leb_gt in E4; lia].
Qed.

Lemma narrow_beyond {A} (t : list A) (n : Z) :
  Py.len t < n -> Tensor.narrow t 0 n = Raise RuntimeError.
Proof.
  intros Hn. pose proof (len_nonneg t) as Ht. unfold Tensor.narrow.
  destruct (n <? 0) eqn:E1; [reflexivity|].
  destruct (0 <? - Py.len t) eqn:E2; [apply Z.ltb_lt in E2; lia|].
  destruct (Py.len t <? 0) eqn:E3; [apply Z.ltb_lt in E3; lia|].
  cbn [orb Z.ltb Z.compare].
  destruct (0 + n <=? Py.len t) eqn:E4; [apply Z.leb_le in E4; lia | reflexivity].
Qed.

Lemma view_rows (data : tokens) (nbatch bsz : nat) :
  (0 < bsz)%nat -> length data = (bsz * nbatch)%nat ->
  Tensor.view data (Z.of_nat bsz) =
  Ok (map (fun j => firstn nbatch (skipn (j * nbatch) data)) (seq 0 bsz)).
Proof.
  intros Hb Hlen. unfold Tensor.view, Py.len. rewrite Hlen.
  assert (E : Z.of_nat (bsz * nbatch) = Z.of_nat nbatch * Z.of_nat bsz) by lia.
  rewrite E, Z_mod_mult, Z.div_mul by lia.
  replace (0 <? Z.of_nat bsz) with true by (symmetry; apply Z.ltb_lt; lia).
  simpl. now rewrite !Nat2Z.id.
Qed.

Lemma t_rows (data : tokens) (nbatch bsz : nat) :
  (0 < bsz)%nat -> length data = (bsz * nbatch)%nat ->
  Tensor.t (map (fun j => firstn nbatch (skipn (j * nbatch) data)) (seq 0 bsz)) =
  columns_of data nbatch bsz.
Proof.
  intros Hb Hlen. destruct bsz as [|b]; [lia|].
  assert (Ht : forall (m : grid) row0 rest, m = row0 :: rest ->
            Tensor.t m = map (fun r => map (fun row => nth r row 0) m)
                             (seq 0 (length row0)))
    by (intros m row0 rest ->; reflexivity).
  rewrite (Ht _ (firstn nbatch (skipn (0 * nbatch) data))
              (map (fun j => firstn nbatch (skipn (j * nbatch) data)) (seq 1 b)))
    by reflexivity.
  rewrite length_firstn, length_skipn, Hlen.
  replace (Nat.min nbatch (S b * nbatch - 0 * nbatch)) with nbatch by lia.
  unfold columns_of. apply map_ext_in. intros r Hr. apply in_seq in Hr.
  rewrite map_map. apply map_ext_in. intros j Hj. apply in_seq in Hj.
  rewrite nth_firstn.
  replace (r <? nbatch)%nat with true by (symmetry; apply Nat.ltb_lt; lia).
  apply nth_skipn.
Qed.

Lemma floordiv_nonpos (N B : Z) : 0 <= N -> B < 0 -> N / B <= 0.
Proof.
  intros HN HB.
  pose proof (Z.div_mod N B ltac:(lia)) as Hdm.
  pose proof (Z.mod_neg_bound N B HB) as Hr.
  nia.
Qed.

(** What [batchify] does for a positive stream-count, whatever the
    length of the stream. *)
Lemma batchify_columns (cuda_init : result unit) (cuda : bool) (data : tokens) (B : Z) :
  0 < B ->
  batchify cuda_init cuda data B =
  let g := columns_of (firstn (Z.to_nat (B * (Py.len data / B))) data)
                      (Z.to_nat (Py.len data / B)) (Z.to_nat B) in
  if cuda then Tensor.cuda cuda_init g else Ok g.
Proof.
  intros HB. pose proof (len_nonneg data) as HN0. set (N := Py.len data) in *.
  assert (Hq : 0 <= N / B) by (apply Z.div_pos; lia).
  assert (Hle : B * (N / B) <= N) by (apply Z.mul_div_le; lia).
  unfold batchify, Py.floordiv.
  destruct (B =? 0) eqn:E; [apply Z.eqb_eq in E; lia|]. cbn [rbind].
  fold N. rewrite narrow_prefix by (fold N; nia). cbn [rbind].
  replace (N / B * B) with (B * (N / B)) by lia.
  set (d := firstn (Z.to_nat (B * (N / B))) data).
  assert (Hd : length d = (Z.to_nat B * Z.to_nat (N / B))%nat).
  { unfold d. rewrite length_firstn. unfold N, Py.len in *. nia. }
  rewrite <- (Z2Nat.id B) at 1 by lia.
  rewrite (@view_rows d (Z.to_nat (N / B)) (Z.to_nat B)) by (try lia; exact Hd).
  cbn [rbind]. unfold Tensor.contiguous.
  rewrite t_rows by (try lia; exact Hd).
  reflexivity.
Qed.

(** A stream-count that is not positive gives no grid. *)
Lemma batchify_nonpositive (cuda_init : result unit) (cuda : bool) (data : tokens) (B : Z) :
  B <= 0 ->
  batchify cuda_init cuda data B
  = if B =? 0 then Raise ZeroDivisionError else Raise RuntimeError.
Proof.
  intros HB. pose proof (len_nonneg data) as HN.
  unfold batchify, Py.floordiv.
  destruct (B =? 0) eqn:E0; [reflexivity|]. apply Z.eqb_neq in E0.
  cbn [rbind].
  pose proof (@floordiv_nonpos (Py.len data) B HN ltac:(lia)) as Hq.
  destruct (Z_lt_le_dec (Py.len data) (Py.len data / B * B)) as [Hbig | Hfit].
  - now rewrite narrow_beyond.
  - rewrite narrow_prefix by nia. cbn [rbind]. unfold Tensor.view.
    destruct (0 <? B) eqn:Eb; [apply Z.ltb_lt in Eb; lia | reflexivity].
Qed.

Lemma columns_of_cell (data : tokens) (nbatch bsz : nat) (r c : Z) :
  0 <= r < Z.of_nat nbatch -> 0 <= c < Z.of_nat bsz ->
  Tensor.cell (columns_of data nbatch bsz) r c =
  nth (Z.to_nat c * nbatch + Z.to_nat r) data 0.
Proof.
  intros Hr Hc. unfold Tensor.cell. rewrite !item_nth by lia.
  unfold columns_of.
  rewrite (nth_indep _ [] (map (fun j => nth (j * nbatch + 0) data 0) (seq 0 bsz)))
    by (rewrite length_map, length_seq; lia).
  rewrite (map_nth (fun r => map (fun j => nth (j * nbatch + r) data 0) (seq 0 bsz))
                   (seq 0 nbatch) 0%nat).
  rewrite seq_nth by lia. cbn [Nat.add].
  rewrite (nth_indep _ 0 (nth (0 * nbatch + Z.to_nat r) data 0))
    by (rewrite length_map, length_seq; lia).
  rewrite (map_nth (fun j => nth (j * nbatch + Z.to_nat r) data 0) (seq 0 bsz) 0%nat).
  now rewrite seq_nth by lia.
Qed.

Lemma columns_of_shape (data : tokens) (nbatch bsz : nat) :
  length (columns_of data nbatch bsz) = nbatch
  /\ Forall (fun row => length row = bsz) (columns_of data nbatch bsz).
Proof.
  unfold columns_of. split.
  - now rewrite length_map, length_seq.
  - apply Forall_forall. intros row Hrow. apply in_map_iff in Hrow.
    destruct Hrow as [r [<- _]]. now rewrite length_map, length_seq.
Qed.

(** C2, as amended: for a stream of length [N] and a stream-count [B]
    with [1 <= B <= N], [batchify] makes a grid with [N // B] rows of
    [B] columns, filled column by column from the first
    [B * (N // B)] tokens; no later token has any influence on it.
    The grid is returned as it is without [--cuda], and through
    [.cuda()] with it. *)
Theorem batchify_shape_and_content (cuda_init : result unit) (cuda : bool)
    (data : tokens) (B : Z) :
  0 < B -> B <= Py.len data -> batchify_claim cuda_init cuda data B.
Proof.
  intros HB HN. unfold batchify_claim.
  set (N := Py.len data).
  assert (Hq : 0 < N / B) by (apply Z.div_str_pos; unfold N; lia).
  exists (columns_of (firstn (Z.to_nat (B * (N / B))) data)
                     (Z.to_nat (N / B)) (Z.to_nat B)).
  destruct (columns_of_shape (firstn (Z.to_nat (B * (N / B))) data)
                             (Z.to_nat (N / B)) (Z.to_nat B)) as [Hrows Hcols].
  split; [apply batchify_columns; unfold N in *; lia|].
  split; [unfold Py.len; rewrite Hrows; lia|].
  split.
  { eapply Forall_impl; [|exact Hcols]. cbn. intros row Hrow.
    unfold Py.len. rewrite Hrow. lia. }
  split.
  - intros r c Hr Hc.
    assert (Hidx : 0 <= c * (N / B) + r < B * (N / B)) by nia.
    split; [exact Hidx|].
    rewrite columns_of_cell by lia.
    rewrite item_nth by lia. rewrite nth_firstn.
    replace (Z.to_nat c * Z.to_nat (N / B) + Z.to_nat r)%nat
      with (Z.to_nat (c * (N / B) + r)) by nia.
    replace (Z.to_nat (c * (N / B) + r) <? Z.to_nat (B * (N / B)))%nat with true
      by (symmetry; apply Nat.ltb_lt; lia).
    reflexivity.
  - intros data' Hlen Hfirst.
    rewrite batchify_columns by lia. cbn zeta. rewrite Hlen. fold N. now rewrite Hfirst.
Qed.

Lemma batchify_shape_and_content_witness :
  0 < 3 /\ 3 <= Py.len [10; 11; 12; 13; 14; 15; 16]
  /\ batchify_claim (Ok tt) false [10; 11; 12; 13; 14; 15; 16] 3.
Proof.
  split; [lia|]. split; [unfold Py.len; simpl; lia|].
  apply batchify_shape_and_content; unfold Py.len; simpl; lia.
Defined.

(** C2 as first stated fails: a stream-count of zero satisfies
    [N >= B] for every stream, and [batchify] raises on the division
    that computes the number of rows. *)
Lemma batchify_zero_streams :
  0 <= Py.len [1; 2; 3]
  /\ batchify (Ok tt) false [1; 2; 3] 0 = Raise ZeroDivisionError
  /\ ~ batchify_claim (Ok tt) false [1; 2; 3] 0.
Proof.
  split; [unfold Py.len; simpl; lia|]. split; [reflexivity|].
  intros [g [Hg _]]. discriminate Hg.
Qed.

(** A stream shorter than the stream-count gives a grid of zero
    rows. *)
Example batchify_short_stream :
  batchify (Ok tt) false [1; 2; 3] 4 = Ok [].
Proof. reflexivity. Qed.

(** Without a device to move the grid to, [--cuda] stops the script
    at the first stream. *)
Example batchify_without_device (e : exn) :
  batchify (Raise e) true [1; 2; 3] 1 = Raise e.
Proof. reflexivity. Qed.

(** [batchify] returns a grid for a positive stream-count only, and
    the grid is the one filled column by column. *)
Lemma batchify_ok_inv (cuda_init : result unit) (cuda : bool) (data : tokens) (B : Z)
    (g : grid) :
  batchify cuda_init cuda data B = Ok g ->
  0 < B
  /\ g = columns_of (firstn (Z.to_nat (B * (Py.len data / B))) data)
                    (Z.to_nat (Py.len data / B)) (Z.to_nat B).
Proof.
  intros Hg. destruct (Z_lt_le_dec 0 B) as [HB | HB].
  - split; [exact HB|]. rewrite batchify_columns in Hg by exact HB. cbn zeta in Hg.
    destruct cuda; [|now injection Hg as <-].
    unfold Tensor.cuda in Hg. destruct cuda_init as [[]|e]; [|discriminate Hg].
    cbn [rbind] in Hg. now injection Hg as <-.
  - rewrite batchify_nonpositive in Hg by exact HB.
    destruct (B =? 0); discriminate Hg.
Qed.

Lemma batchify_rectangular (cuda_init : result unit) (cuda : bool) (data : tokens) (B : Z)
    (g : grid) :
  batchify cuda_init cuda data B = Ok g -> rectangular B g.
Proof.
  intros Hg. destruct (batchify_ok_inv _ _ _ _ Hg) as [HB ->].
  unfold rectangular.
  eapply Forall_impl; [|apply columns_of_shape].
  cbn. intros row Hrow. unfold Py.len. rewrite Hrow. lia.
Qed.

(** For a positive stream-count [batchify] makes the grid of [B]
    parallel streams, of whatever length the stream is. *)
Lemma batchify_streams (cuda_init : result unit) (cuda : bool) (data : tokens) (B : Z) :
  0 < B ->
  exists g,
    batchify cuda_init cuda data B = (if cuda then Tensor.cuda cuda_init g else Ok g)
    /\ batchified_by B data g.
Proof.
  intros HB. pose proof (len_nonneg data) as HN0. set (N := Py.len data) in *.
  assert (Hq : 0 <= N / B) by (apply Z.div_pos; lia).
  assert (Hle : B * (N / B) <= N) by (apply Z.mul_div_le; lia).
  exists (columns_of (firstn (Z.to_nat (B * (N / B))) data)
                     (Z.to_nat (N / B)) (Z.to_nat B)).
  split; [now apply batchify_columns|].
  destruct (columns_of_shape (firstn (Z.to_nat (B * (N / B))) data)
                             (Z.to_nat (N / B)) (Z.to_nat B)) as [Hrows Hcols].
  assert (Hlen : Py.len (columns_of (firstn (Z.to_nat (B * (N / B))) data)
                                    (Z.to_nat (N / B)) (Z.to_nat B)) = N / B)
    by (unfold Py.len; rewrite Hrows; lia).
  unfold batchified_by. rewrite Hlen. split; [reflexivity|]. split.
  - unfold rectangular. eapply Forall_impl; [|exact Hcols]. cbn. intros row Hrow.
    unfold Py.len. rewrite Hrow. lia.
  - intros r c Hr Hc. rewrite columns_of_cell by lia.
    rewrite item_nth by nia. rewrite nth_firstn.
    replace (Z.to_nat c * Z.to_nat (N / B) + Z.to_nat r)%nat
      with (Z.to_nat (c * (N / B) + r)) by nia.
    replace (Z.to_nat (c * (N / B) + r) <? Z.to_nat (B * (N / B)))%nat with true
      by (symmetry; apply Nat.ltb_lt; nia).
    reflexivity.
Qed.

Lemma batchify_steps (cuda_init : result unit) (cuda : bool) (data : tokens) (B : Z)
    (g : grid) :
  batchify cuda_init cuda data B = Ok g -> Py.len g = Py.len data / B.
Proof.
  intros Hg. destruct (batchify_ok_inv _ _ _ _ Hg) as [HB ->].
  pose proof (len_nonneg data) as HN.
  assert (Hq : 0 <= Py.len data / B) by (apply Z.div_pos; lia).
  unfold Py.len at 1. rewrite (proj1 (columns_of_shape _ _ _)). lia.
Qed.

(** ** The window sampler *)

Lemma slice_in_range {A} (l : list A) (a b : Z) :
  0 <= a -> a <= b -> b <= Py.len l ->
  Py.slice l a b = firstn (Z.to_nat (b - a)) (skipn (Z.to_nat a) l).
Proof.
  intros Ha Hab Hb. unfold Py.slice, Py.slice_bound.
  destruct (a <? 0) eqn:Ea; [apply Z.ltb_lt in Ea; lia|].
  destruct (b <? 0) eqn:Eb; [apply Z.ltb_lt in Eb; lia|].
  now rewrite !Z.min_l by lia.
Qed.

Lemma len_slice {A} (l : list A) (a b : Z) :
  0 <= a -> a <= b -> b <= Py.len l -> Py.len (Py.slice l a b) = b - a.
Proof.
  intros Ha Hab Hb. rewrite slice_in_range by assumption.
  unfold Py.len in *. rewrite length_firstn, length_skipn. lia.
Qed.

Lemma item_slice {A} (d : A) (l : list A) (a b k : Z) :
  0 <= a -> a <= b -> b <= Py.len l -> 0 <= k < b - a ->
  Py.item d (Py.slice l a b) k = Py.item d l (a + k).
Proof.
  intros Ha Hab Hb Hk. rewrite slice_in_range by assumption.
  rewrite !item_nth by lia. rewrite nth_firstn.
  replace (Z.to_nat k <? Z.to_nat (b - a))%nat with true
    by (symmetry; apply Nat.ltb_lt; lia).
  rewrite nth_skipn. f_equal. lia.
Qed.

Lemma In_firstn {A} (n : nat) (l : list A) (x : A) : In x (firstn n l) -> In x l.
Proof.
  intros Hx. rewrite <- (firstn_skipn n l). apply in_or_app. now left.
Qed.

Lemma In_skipn {A} (n : nat) (l : list A) (x : A) : In x (skipn n l) -> In x l.
Proof.
  intros Hx. rewrite <- (firstn_skipn n l). apply in_or_app. now right.
Qed.

Lemma rectangular_slice (B : Z) (g : grid) (a b : Z) :
  rectangular B g -> rectangular B (Py.slice g a b).
Proof.
  unfold rectangular, Py.slice. intros Hg.
  rewrite Forall_forall in *. intros row Hrow.
  apply Hg. eapply In_skipn, In_firstn, Hrow.
Qed.

Lemma length_flatten (B : nat) (g : grid) :
  Forall (fun row => length row = B) g ->
  length (Tensor.flatten g) = (length g * B)%nat.
Proof.
  unfold Tensor.flatten. induction 1 as [|row rest Hrow _ IH]; [reflexivity|].
  cbn [concat length]. rewrite length_app, IH, Hrow. lia.
Qed.

Lemma nth_flatten (B : nat) (g : grid) (k c : nat) :
  Forall (fun row => length row = B) g ->
  (k < length g)%nat -> (c < B)%nat ->
  nth (k * B + c) (Tensor.flatten g) 0 = nth c (nth k g []) 0.
Proof.
  unfold Tensor.flatten. intros Hg. revert k.
  induction Hg as [|row rest Hrow _ IH]; intros k Hk Hc; [cbn in Hk; lia|].
  cbn [concat]. destruct k as [|k].
  - cbn [Nat.mul Nat.add nth]. now rewrite app_nth1 by lia.
  - cbn [nth length] in *.
    replace (S k * B + c)%nat with (length row + (k * B + c))%nat by lia.
    rewrite app_nth2_plus. apply IH; lia.
Qed.

Lemma rectangular_nat (B : Z) (g : grid) :
  rectangular B g -> Forall (fun row => length row = Z.to_nat B) g.
Proof.
  unfold rectangular, Py.len. apply Forall_impl. intros row Hrow. lia.
Qed.

Lemma len_flatten (B : Z) (g : grid) :
  rectangular B g -> Py.len (Tensor.flatten g) = Py.len g * B.
Proof.
  intros Hg. unfold Py.len.
  rewrite (length_flatten (rectangular_nat Hg)).
  destruct g as [|row rest]; [reflexivity|].
  assert (0 <= B) by (inversion Hg; subst; apply len_nonneg). lia.
Qed.

Lemma item_flatten (B : Z) (g : grid) (k c : Z) :
  rectangular B g -> 0 <= k < Py.len g -> 0 <= c < B ->
  Py.item 0 (Tensor.flatten g) (k * B + c) = Tensor.cell g k c.
Proof.
  intros Hg Hk Hc. unfold Tensor.cell. rewrite !item_nth by nia.
  rewrite <- (nth_flatten (rectangular_nat Hg)) by (unfold Py.len in *; lia).
  f_equal. nia.
Qed.

(** C3: at a start offset [i] with a step after it, [get_batch]
    returns [grid[i : i+L]] and [grid[i+1 : i+1+L]] flattened, with
    [L = min(bptt, steps remaining - 1)]; both cover [L] steps of the
    grid, that is [L * B] positions each, and the target at step [k]
    is the grid at step [i + k + 1], one step after the input's. *)
Theorem get_batch_shifted (bptt B : Z) (source : grid) (i : Z) :
  rectangular B source -> 0 < bptt -> 0 <= i < Py.len source - 1 ->
  get_batch_claim bptt B source i.
Proof.
  intros Hrect Hbptt Hi. unfold get_batch_claim.
  set (L := Z.min bptt (Py.len source - i - 1)).
  set (input := fst (get_batch bptt source i)).
  set (target := snd (get_batch bptt source i)).
  assert (HL : seq_len bptt source i = L) by (unfold seq_len, L; f_equal; lia).
  assert (HL1 : 1 <= L) by (unfold L; lia).
  assert (HLr : i + 1 + L <= Py.len source) by (unfold L; lia).
  assert (Hin : input = Py.slice source i (i + L))
    by (unfold input, get_batch; cbn [fst]; now rewrite HL).
  assert (Htg : target = Tensor.flatten (Py.slice source (i + 1) (i + 1 + L)))
    by (unfold target, get_batch; cbn [snd]; now rewrite HL).
  assert (Hlin : Py.len input = L) by (rewrite Hin, len_slice; lia).
  assert (Hltg : Py.len target = L * B).
  { rewrite Htg, (@len_flatten B) by (apply rectangular_slice, Hrect).
    rewrite len_slice; lia. }
  repeat split; try assumption.
  - rewrite (@len_flatten B), Hlin, Hltg; [reflexivity|].
    rewrite Hin. apply rectangular_slice, Hrect.
  - unfold Tensor.cell. rewrite Hin, item_slice by lia. reflexivity.
  - rewrite Htg, item_flatten.
    + unfold Tensor.cell. rewrite item_slice by lia. do 2 f_equal. lia.
    + apply rectangular_slice, Hrect.
    + rewrite len_slice; lia.
    + assumption.
Qed.

Lemma get_batch_shifted_witness :
  rectangular 2 [[0; 1]; [2; 3]; [4; 5]; [6; 7]]
  /\ 0 < 2 /\ 0 <= 2 < Py.len [[0; 1]; [2; 3]; [4; 5]; [6; 7]] - 1
  /\ get_batch_claim 2 2 [[0; 1]; [2; 3]; [4; 5]; [6; 7]] 2.
Proof.
  assert (Hr : rectangular 2 [[0; 1]; [2; 3]; [4; 5]; [6; 7]])
    by (repeat constructor).
  assert (Hi : 0 <= 2 < Py.len [[0; 1]; [2; 3]; [4; 5]; [6; 7]] - 1)
    by (unfold Py.len; simpl; lia).
  split; [exact Hr|]. split; [lia|]. split; [exact Hi|].
  apply get_batch_shifted; [exact Hr | lia | exact Hi].
Defined.

Example get_batch_last_window :
  get_batch 2 [[0; 1]; [2; 3]; [4; 5]; [6; 7]] 2 = ([[4; 5]], [6; 7]).
Proof. reflexivity. Qed.

(** ** The offsets of the loops *)

Lemma range_ascending (stop step : Z) :
  0 < step ->
  exists n : nat,
    Py.range 0 stop step = Ok (map (fun k => 0 + Z.of_nat k * step) (seq 0 n))
    /\ (forall k, (k < n)%nat -> Z.of_nat k * step < stop)
    /\ (0 < stop -> (0 < n)%nat).
Proof.
  intros Hstep. unfold Py.range.
  destruct (step =? 0) eqn:E0; [apply Z.eqb_eq in E0; lia|].
  destruct (0 <? step) eqn:E1; [|apply Z.ltb_ge in E1; lia].
  exists (Z.to_nat ((stop - 0 + step - 1) / step)). split; [reflexivity|].
  pose proof (Z.mul_div_le (stop - 0 + step - 1) step Hstep) as Hle.
  pose proof (Z.mul_succ_div_gt (stop - 0 + step - 1) step Hstep) as Hgt.
  split.
  - intros k Hk. nia.
  - intros Hstop.
    assert (0 < (stop - 0 + step - 1) / step)
      by (apply Z.div_str_pos; lia).
    lia.
Qed.

Lemma range_descending_empty (stop step : Z) :
  step < 0 -> 0 <= stop -> Py.range 0 stop step = Ok [].
Proof.
  intros Hstep Hstop. unfold Py.range.
  destruct (step =? 0) eqn:E0; [apply Z.eqb_eq in E0; lia|].
  destruct (0 <? step) eqn:E1; [apply Z.ltb_lt in E1; lia|].
  assert (H : (0 - stop - step - 1) / - step < 1)
    by (apply Z.div_lt_upper_bound; lia).
  replace (Z.to_nat ((0 - stop - step - 1) / - step)) with 0%nat by lia.
  reflexivity.
Qed.

(** C4: on a grid with at least two steps, every offset that the loops
    of [train] and [evaluate] generate leaves a step after it, and the
    window [get_batch] takes there has length at least one. *)
Theorem window_length_positive (bptt : Z) (source : grid) (offsets : list Z) (i : Z) :
  2 <= Py.len source ->
  window_offsets bptt source = Ok offsets ->
  In i offsets ->
  0 <= i < Py.len source - 1 /\ 1 <= seq_len bptt source i.
Proof.
  intros Hlen Hoff Hi. unfold window_offsets in Hoff.
  destruct (Z.lt_trichotomy bptt 0) as [Hneg | [Hzero | Hpos]].
  - rewrite range_descending_empty in Hoff by lia.
    injection Hoff as <-. destruct Hi.
  - subst bptt. discriminate Hoff.
  - destruct (range_ascending (Py.len source - 1) Hpos) as [n [Hr [Hlt _]]].
    rewrite Hr in Hoff. injection Hoff as <-.
    apply in_map_iff in Hi. destruct Hi as [k [<- Hk]].
    apply in_seq in Hk. specialize (Hlt k ltac:(lia)).
    unfold seq_len. split; nia.
Qed.

Lemma window_length_positive_witness :
  2 <= Py.len [[0]; [1]; [2]; [3]]
  /\ window_offsets 2 [[0]; [1]; [2]; [3]] = Ok [0; 2]
  /\ In 2 [0; 2]
  /\ 0 <= 2 < Py.len [[0]; [1]; [2]; [3]] - 1
  /\ 1 <= seq_len 2 [[0]; [1]; [2]; [3]] 2.
Proof.
  split; [unfold Py.len; simpl; lia|]. split; [reflexivity|].
  split; [simpl; tauto|].
  apply (@window_length_positive 2 [[0]; [1]; [2]; [3]] [0; 2] 2);
    [unfold Py.len; simpl; lia | reflexivity | simpl; tauto].
Defined.

(** ** Reasoning about statements *)

(** One statement of a sequence: the first [bind] is opened and the
    plain statements are run. *)
Ltac step :=
  unfold bind at 1; cbn [lift ret raise get modify on_model for_each].

Lemma with_model_same {R B} (g : globals R B) : with_model (model g) g = g.
Proof. now destruct g. Qed.

Lemma outcome_state_bind {S A C} (c : M S A) (k : A -> M S C) (s : S) :
  outcome_state (bind c k s) =
  match c s with
  | Done x s' => outcome_state (k x s')
  | Abort _ s' => s'
  end.
Proof. unfold bind. now destruct (c s). Qed.

(** A property of the state that every pass through the body of a loop
    keeps is kept by the loop, however it ends. *)
Lemma for_each_keeps {S X L} (P : S -> Prop) (body : X -> L -> M S L) :
  (forall x l s, P s -> P (outcome_state (body x l s))) ->
  forall xs l s, P s -> P (outcome_state (for_each xs body l s)).
Proof.
  intros Hbody xs. induction xs as [|x xs IH]; intros l s Hs; [exact Hs|].
  cbn [for_each]. rewrite outcome_state_bind.
  specialize (Hbody x l s Hs).
  destruct (body x l s) as [l' s' | e s']; cbn in *; [now apply IH | exact Hbody].
Qed.

(** ** The evaluation loop *)

Section EvaluationFacts.

Context {R : Type} {num : PyFloat R} {B H logits loss : Type}.
Variable env : Env R B H logits loss.

Lemma evaluate_window_keeps (a : args R) (src : grid) (vals : list (string * ftensor R))
    (i : Z) (loc : accum R * hidden H) (g : globals R B) :
  forward_keeps_parameters env ->
  parameter_values (model g) = vals ->
  parameter_values (model (outcome_state (evaluate_window env a src i loc g))) = vals.
Proof.
  intros Hfw Hg. destruct loc as [total h]. unfold evaluate_window.
  destruct (get_batch (args_bptt a) src i) as [input targets].
  unfold bind, call. specialize (Hfw (model g) input h).
  destruct (forward env (model g) input h) as [[output h'] m']. cbn in *.
  congruence.
Qed.

(** C9: [evaluate] leaves every parameter of the model as it was,
    whether it returns or raises, on every data stream, given that the
    forward pass of the network does not write the parameters. *)
Theorem evaluate_keeps_parameters (a : args R) (data_source : grid) (g : globals R B) :
  forward_keeps_parameters env ->
  parameter_values (model (outcome_state (evaluate env a data_source g))) =
  parameter_values (model g).
Proof.
  intros Hfw. unfold evaluate.
  rewrite outcome_state_bind. cbn [on_model modify].
  rewrite outcome_state_bind. cbn [get].
  rewrite outcome_state_bind.
  set (g1 := with_model (module_eval (model g)) g).
  assert (Hg1 : parameter_values (model g1) = parameter_values (model g)) by reflexivity.
  destruct (window_offsets (args_bptt a) data_source) as [offsets | e]; cbn [lift ret raise];
    [|exact Hg1].
  rewrite outcome_state_bind.
  pose proof (@for_each_keeps _ _ _
                (fun s => parameter_values (model s) = parameter_values (model g))
                (evaluate_window env a data_source)
                (fun i loc s Hs => @evaluate_window_keeps a data_source _ i loc s Hfw Hs)
                offsets (PyInt 0, init_hidden env (model g1) eval_batch_size) g1 Hg1)
    as Hloop.
  destruct (for_each offsets (evaluate_window env a data_source)
              (PyInt 0, init_hidden env (model g1) eval_batch_size) g1)
    as [loc g2 | e g2]; cbn in Hloop; [|exact Hloop].
  rewrite outcome_state_bind.
  destruct (accum_item (fst loc)); cbn; exact Hloop.
Qed.

Lemma accum_total_tensor (x : R) (ls : list (Z * R)) :
  accum_total (FloatTensor x) ls =
  FloatTensor (fold_left (fun total lc => fadd total (fmul (of_int (fst lc)) (snd lc)))
                         ls x).
Proof.
  revert x. induction ls as [|lc ls IH]; intros x; [reflexivity|].
  unfold accum_total in *. cbn [fold_left accum_add]. apply IH.
Qed.

Lemma accum_total_int (ls : list (Z * R)) :
  ls <> [] -> accum_total (PyInt 0) ls = FloatTensor (weighted_sum ls).
Proof.
  destruct ls as [|lc ls]; [congruence|]. intros _.
  unfold accum_total, weighted_sum. cbn [fold_left accum_add].
  apply accum_total_tensor.
Qed.

Lemma evaluate_loop (a : args R) (src : grid) (offsets : list Z) :
  0 < args_bptt a ->
  Forall (fun i => 0 <= i < Py.len src - 1) offsets ->
  forall (acc : accum R) (h : hidden H) (g : globals R B),
    let w := window_losses env (args_bptt a) src offsets h (model g) in
    for_each offsets (evaluate_window env a src) (acc, h) g =
    Done (accum_total acc (fst w), fst (snd w)) (with_model (snd (snd w)) g).
Proof.
  intros Hbptt Hoff. induction Hoff as [|i rest Hi _ IH]; intros acc h g.
  - cbn. now rewrite with_model_same.
  - cbn [for_each]. unfold bind at 1. unfold evaluate_window at 1.
    unfold get_batch, seq_len.
    replace (Py.len src - 1 - i) with (Py.len src - i - 1) by lia.
    set (L := Z.min (args_bptt a) (Py.len src - i - 1)).
    assert (HL : 1 <= L <= Py.len src - i - 1) by (unfold L; lia).
    unfold bind, call. cbn [window_losses]. fold L.
    rewrite len_slice by lia. replace (i + L - i) with L by lia.
    destruct (forward env (model g) (Py.slice src i (i + L)) h) as [[output h'] m'].
    cbn [ret fst snd]. rewrite IH. cbn [model with_model fst snd accum_total fold_left].
    reflexivity.
Qed.

(** C6, as amended: on a data stream with at least two steps, with a
    positive window length configured, [evaluate] returns the sum over
    the windows of window length times cross entropy, divided by the
    number of steps of the stream. *)
Theorem evaluate_weighted_average (a : args R) (data_source : grid) (g : globals R B) :
  2 <= Py.len data_source -> 0 < args_bptt a ->
  evaluate_claim env a data_source g.
Proof.
  intros Hlen Hbptt. unfold evaluate_claim.
  destruct (range_ascending (Py.len data_source - 1) Hbptt) as [n [Hr [Hlt Hn]]].
  set (offsets := map (fun k => 0 + Z.of_nat k * args_bptt a) (seq 0 n)) in *.
  assert (Hoff : Forall (fun i => 0 <= i < Py.len data_source - 1) offsets).
  { apply Forall_forall. intros i Hi. apply in_map_iff in Hi.
    destruct Hi as [k [<- Hk]]. apply in_seq in Hk.
    specialize (Hlt k ltac:(lia)). nia. }
  assert (Hne : offsets <> []).
  { specialize (Hn ltac:(lia)). unfold offsets.
    destruct n; [lia | discriminate]. }
  exists offsets. eexists. split; [exact Hr|].
  unfold evaluate, window_offsets. rewrite Hr. do 3 step.
  unfold bind at 1. rewrite (@evaluate_loop a data_source offsets Hbptt Hoff).
  cbn [fst snd model with_model].
  rewrite accum_total_int.
  - unfold bind. cbn [accum_item lift ret]. reflexivity.
  - destruct offsets; [congruence | discriminate].
Qed.

(** From which hidden state the average is computed. *)
Lemma evaluate_average (a : args R) (data_source : grid) (g : globals R B) :
  2 <= Py.len data_source -> 0 < args_bptt a ->
  evaluate_from env a data_source g
                (init_hidden env (module_eval (model g)) eval_batch_size).
Proof.
  intros Hlen Hbptt. unfold evaluate_from.
  destruct (range_ascending (Py.len data_source - 1) Hbptt) as [n [Hr [Hlt Hn]]].
  set (offsets := map (fun k => 0 + Z.of_nat k * args_bptt a) (seq 0 n)) in *.
  assert (Hoff : Forall (fun i => 0 <= i < Py.len data_source - 1) offsets).
  { apply Forall_forall. intros i Hi. apply in_map_iff in Hi.
    destruct Hi as [k [<- Hk]]. apply in_seq in Hk.
    specialize (Hlt k ltac:(lia)). nia. }
  assert (Hne : offsets <> []).
  { specialize (Hn ltac:(lia)). unfold offsets.
    destruct n; [lia | discriminate]. }
  exists offsets. eexists. split; [exact Hr|].
  unfold evaluate, window_offsets. rewrite Hr. do 3 step.
  unfold bind at 1. rewrite (@evaluate_loop a data_source offsets Hbptt Hoff).
  cbn [fst snd model with_model].
  rewrite accum_total_int.
  - unfold bind. cbn [accum_item lift ret]. reflexivity.
  - destruct offsets; [congruence | discriminate].
Qed.

End EvaluationFacts.

(** ** The optimizer step *)

Section OptimizerFacts.

Context {R : Type} {num : PyFloat R} {B H logits loss : Type}.
Variable env : Env R B H logits loss.

Lemma zero_grad_zero (m : module R B) : gradients_zero (zero_grad m).
Proof.
  unfold gradients_zero, zero_grad, map_parameters. cbn [named_parameters set_parameters].
  apply Forall_forall. intros np Hnp. apply in_map_iff in Hnp.
  destruct Hnp as [[name p] [<- _]]. cbn. intros g Hg.
  destruct (grad p) as [g0|]; [|discriminate]. injection Hg as <-.
  apply Forall_forall. intros x Hx. apply in_map_iff in Hx. now destruct Hx as [_ [<- _]].
Qed.

Lemma zero_grad_values (m : module R B) :
  parameter_values (zero_grad m) = parameter_values m.
Proof.
  unfold parameter_values, zero_grad, map_parameters. cbn [named_parameters set_parameters].
  rewrite map_map. reflexivity.
Qed.

Lemma expandable_rev_refl (l : list nat) : Tensor.expandable_rev l l = true.
Proof.
  induction l as [|d l IH]; [reflexivity|].
  cbn [Tensor.expandable_rev]. now rewrite Nat.eqb_refl, IH.
Qed.

Lemma pad_size_same (size : list nat) : Tensor.pad_size size size = size.
Proof. unfold Tensor.pad_size. now rewrite Nat.sub_diag. Qed.

(** Expanding a tensor to its own sizes leaves its entries as they are. *)
Lemma expand_same {A} (size : list nat) (es : list A) :
  length es = Tensor.numel size -> Tensor.expand size size es = es.
Proof.
  revert es. induction size as [|d size IH]; intros es Hlen; [reflexivity|].
  change (Tensor.numel (d :: size)) with (d * Tensor.numel size)%nat in Hlen.
  cbn [Tensor.expand]. rewrite Nat.eqb_refl, flat_map_concat_map.
  rewrite (map_ext_in _ (fun k => firstn (Tensor.numel size)
                                         (skipn (k * Tensor.numel size) es))).
  - rewrite concat_chunks. apply firstn_all2. lia.
  - intros k Hk. apply in_seq in Hk. apply IH.
    rewrite length_firstn, length_skipn. nia.
Qed.

(** [add_] with a tensor of the same sizes. *)
Lemma add_same_sizes (x other : ftensor R) (value : R) :
  shape other = shape x -> length (entries other) = Tensor.numel (shape other) ->
  add_ x value other =
  Ok {| shape := shape x;
        entries := map (fun xg => fadd (fst xg) (fmul value (snd xg)))
                       (combine (entries x) (entries other)) |}.
Proof.
  intros Hs Hlen. unfold add_, Tensor.expandable. rewrite Hs in *.
  now rewrite expandable_rev_refl, pad_size_same, expand_same.
Qed.

Lemma sgd_update_rule (lr : R) (ps : list (string * parameter R)) :
  Forall (fun np => has_gradient (snd np)) ps ->
  snd (sgd_update lr ps) = Ok tt
  /\ Forall2 (fun np np' => fst np' = fst np /\ sgd_rule lr (snd np) (snd np'))
             ps (fst (sgd_update lr ps)).
Proof.
  induction 1 as [|[name p] rest Hp _ [IHr IHf]]; [split; [reflexivity | constructor]|].
  cbn [sgd_update]. cbn [snd] in Hp.
  destruct (requires_grad p) eqn:Erg.
  - destruct (Hp Erg) as [g [Hg [Hs Hlen]]]. rewrite Hg.
    rewrite (@add_same_sizes (data p) g (fneg lr) Hs Hlen).
    destruct (sgd_update lr rest) as [rest' r]. cbn [fst snd] in *.
    split; [exact IHr|]. constructor; [|exact IHf].
    split; [reflexivity|]. unfold sgd_rule. cbn. rewrite Erg, Hg.
    repeat split; reflexivity.
  - destruct (sgd_update lr rest) as [rest' r]. cbn [fst snd] in *.
    split; [exact IHr|]. constructor; [|exact IHf].
    split; [reflexivity|]. unfold sgd_rule. cbn [snd]. rewrite Erg.
    repeat split; reflexivity.
Qed.

Lemma clip_keeps_gradients (m : module R B) (max_norm : R) :
  Forall (fun np => has_gradient (snd np)) (named_parameters m) ->
  Forall (fun np => has_gradient (snd np)) (named_parameters (clip_grad_norm env m max_norm)).
Proof.
  intros Hm. unfold clip_grad_norm.
  destruct (flt _ _); [|exact Hm].
  unfold map_parameters. cbn [named_parameters set_parameters].
  rewrite Forall_forall in *. intros np Hnp. apply in_map_iff in Hnp.
  destruct Hnp as [[name p] [<- Hin]]. specialize (Hm _ Hin).
  unfold has_gradient in *. cbn in *. intros Hrg.
  destruct (Hm Hrg) as [g [Hg [Hs Hlen]]]. rewrite Hg. cbn.
  eexists. split; [reflexivity|]. cbn. split; [exact Hs|]. now rewrite length_map.
Qed.

(** C5, as amended: in a training window, the gradients are zeroed
    before the forward pass and, once [backward] has given every
    trainable parameter its gradient and the gradients have been
    clipped, every trainable parameter becomes [param - lr * grad]
    and every other parameter is skipped. *)
Theorem optimizer_step (a : args R) (train_data : grid) (epoch batch i : Z)
    (h : hidden H) (g : globals R B) (perplexity : R) :
  interrupted env epoch batch = false ->
  math_exp env (window_cross_entropy env a train_data i h g) = Ok perplexity ->
  Forall (fun np => has_gradient (snd np))
         (named_parameters (model_after_backward env a train_data i h g)) ->
  optimizer_step_claim env a train_data epoch batch i h g.
Proof.
  intros Hint Hexp Hgrad. unfold optimizer_step_claim.
  split; [apply zero_grad_zero|]. split; [apply zero_grad_values|].
  destruct (sgd_update_rule (lr g) (@clip_keeps_gradients _ (args_clip a) Hgrad))
    as [Hok Hrule].
  unfold model_after_clip in *.
  unfold window_cross_entropy, model_after_backward, model_at_forward in *.
  unfold train_window_step. rewrite Hint.
  destruct (get_batch (args_bptt a) train_data i) as [input targets].
  cbn [fst snd] in *.
  unfold bind, on_model, modify, call, ret. cbn [model with_model].
  destruct (forward env (zero_grad (model g)) input (repackage_hidden h))
    as [[output h'] m1].
  cbn [fst snd model with_model] in *.
  destruct (calculate_loss_values env m1 output targets) as [lv m2].
  cbn [fst snd model with_model] in *.
  rewrite Hexp. cbn [lift ret].
  unfold sgd_step. cbn [model lr with_model append_train_metrics].
  destruct (sgd_update (lr g) _) as [ps r]. cbn [fst snd] in *. subst r.
  eexists. eexists. split; [reflexivity|]. split; [reflexivity|].
  cbn [model with_model named_parameters set_parameters]. exact Hrule.
Qed.

End OptimizerFacts.

(** ** Stream counts *)

Section ConfigurationFacts.

Context {R : Type} {num : PyFloat R} {B H logits loss : Type}.
Variable env : Env R B H logits loss.

(** C10: whatever [--batch-size] is, the validation and test streams
    are made with 10 parallel streams, [--batch-size] reaches the
    training stream only, and the loop of [evaluate] starts from the
    hidden state that [init_hidden] gives for 10 streams: what
    [evaluate] returns is computed from that state. *)
Theorem evaluation_stream_count (a : args R) (c : corpus) (bsz : Z)
    (data_source : grid) (g : globals R B) :
  2 <= Py.len data_source -> 0 < args_bptt a ->
  stream_count_claim env a c bsz data_source g.
Proof.
  intros Hlen Hbptt. unfold stream_count_claim.
  split; [apply (batchify_streams (cuda_init env) (args_cuda a) (corpus_valid c)); lia|].
  split; [apply (batchify_streams (cuda_init env) (args_cuda a) (corpus_test c)); lia|].
  split; [reflexivity|]. split; [reflexivity|].
  split; [intros Hbsz;
          now apply (batchify_streams (cuda_init env) (args_cuda a) (corpus_train c))|].
  exact (@evaluate_average _ _ _ _ _ _ env (with_batch_size bsz a) data_source g
           Hlen Hbptt).
Qed.

End ConfigurationFacts.

(** ** The epoch loop *)

Lemma range_epochs (epochs : Z) :
  1 <= epochs -> exists rest, Py.range 1 (epochs + 1) 1 = Ok (1 :: rest).
Proof.
  intros He. unfold Py.range. cbn [Z.eqb Z.ltb Z.compare].
  replace (epochs + 1 - 1 + 1 - 1) with epochs by lia. rewrite Z.div_1_r.
  destruct (Z.to_nat epochs) as [|k] eqn:Ek; [lia|].
  cbn [seq map]. eexists. reflexivity.
Qed.

Lemma window_offsets_first (bptt : Z) (source : grid) :
  0 < bptt -> 2 <= Py.len source ->
  exists rest, window_offsets bptt source = Ok (0 :: rest).
Proof.
  intros Hb Hlen. unfold window_offsets.
  destruct (range_ascending (Py.len source - 1) Hb) as [n [Hr [_ Hn]]].
  rewrite Hr. destruct n as [|k]; [specialize (Hn ltac:(lia)); lia|].
  cbn [seq map]. eexists. reflexivity.
Qed.

Section EpochFacts.

Context {R : Type} {num : PyFloat R} {B H logits loss : Type}.
Variable env : Env R B H logits loss.

(** What lines 196-202 decide: with no best loss yet, or with a best
    loss that is zero, the model is saved; with a best loss that is
    not zero, it is saved exactly when the new loss is below it, and
    the learning rate is divided by 4 otherwise. *)
Lemma save_or_anneal_decides (epoch : Z) (val_loss : R) (g : globals R B) :
  save_or_anneal epoch val_loss g =
  match best_val_loss g with
  | None => Done tt (with_best_val_loss (Some val_loss) (torch_save epoch g))
  | Some best =>
      if negb (truth best) || flt val_loss best
      then Done tt (with_best_val_loss (Some val_loss) (torch_save epoch g))
      else Done tt (with_lr (fdiv (lr g) (of_int 4)) g)
  end.
Proof.
  unfold save_or_anneal, bind, get, not_, lt_.
  destruct (best_val_loss g) as [best|]; [|reflexivity].
  destruct (negb (truth best) || flt val_loss best); reflexivity.
Qed.

(** C8, the failing run: when Ctrl-C arrives as the first window of
    the first epoch is about to be trained, the epoch loop is left
    without an error, and loading the checkpoint then raises, since
    none was written; the test stream is never evaluated. *)
Theorem interrupt_before_first_checkpoint (a : args R)
    (train_data val_data test_data : grid) (model0 : module R B) :
  1 <= args_epochs a -> 0 < args_bptt a -> 2 <= Py.len train_data ->
  interrupted env 1 0 = true ->
  epoch_loop env a train_data val_data (initial a model0)
  = Done tt (print ExitingEarly
               (print Dashes (with_model (module_train model0) (initial a model0))))
  /\ run env a train_data val_data test_data (initial a model0)
     = Abort FileNotFoundError
             (print ExitingEarly
                (print Dashes (with_model (module_train model0) (initial a model0)))).
Proof.
  intros He Hb Hlen Hint.
  destruct (range_epochs He) as [epochs Hepochs].
  destruct (@window_offsets_first _ _ Hb Hlen) as [offsets Hoffsets].
  assert (Hloop : epoch_loop env a train_data val_data (initial a model0)
                  = Done tt (print ExitingEarly
                               (print Dashes (with_model (module_train model0)
                                                         (initial a model0))))).
  { unfold epoch_loop, try_except. unfold bind at 1. rewrite Hepochs. step.
    unfold epoch_body. unfold bind at 1. unfold train. do 3 step.
    rewrite Hoffsets. step. unfold Py.enumerate.
    cbn [length seq map combine for_each]. unfold bind at 1.
    unfold train_window. unfold bind at 1. unfold train_window_step.
    change (Z.of_nat 0) with 0. rewrite Hint. step.
    reflexivity. }
  split; [exact Hloop|].
  unfold run, bind. rewrite Hloop. reflexivity.
Qed.

(** The progress lines: nothing is printed at window 0 or between
    multiples of [log_interval], and the running loss goes on. *)
Lemma train_window_log_quiet (a : args R) (train_data : grid) (epoch batch : Z)
    (total_loss : R) (row : train_row R) (g : globals R B) :
  args_log_interval a <> 0 ->
  batch mod args_log_interval a <> 0 \/ batch <= 0 ->
  train_window_log env a train_data epoch batch total_loss row g
  = Done (fadd total_loss (row_cross_entropy row)) g.
Proof.
  intros Hli Hquiet. unfold train_window_log, bind, Py.modulo.
  destruct (args_log_interval a =? 0) eqn:E0; [apply Z.eqb_eq in E0; lia|].
  cbn [lift ret].
  destruct ((batch mod args_log_interval a =? 0) && (0 <? batch)) eqn:E; [|reflexivity].
  apply andb_prop in E. destruct E as [E1 E2].
  apply Z.eqb_eq in E1. apply Z.ltb_lt in E2. lia.
Qed.

(** At a positive multiple of [log_interval], the running loss divided
    by [log_interval] is printed with its exponential, and the running
    loss starts again from zero. *)
Lemma train_window_log_prints (a : args R) (train_data : grid) (epoch batch : Z)
    (total_loss : R) (row : train_row R) (g : globals R B) (ppl : R) :
  args_log_interval a <> 0 -> args_bptt a <> 0 ->
  batch mod args_log_interval a = 0 -> 0 < batch ->
  math_exp env (fdiv (fadd total_loss (row_cross_entropy row))
                     (of_int (args_log_interval a))) = Ok ppl ->
  train_window_log env a train_data epoch batch total_loss row g
  = Done (of_int 0)
         (print (WindowLine (row_train_loss row) (row_center_loss row)
                            (row_cross_entropy row) (row_perplexity row))
            (print (ProgressLine epoch batch (Py.len train_data / args_bptt a) (lr g)
                                 (fdiv (fadd total_loss (row_cross_entropy row))
                                       (of_int (args_log_interval a)))
                                 ppl) g)).
Proof.
  intros Hli Hb Hmod Hpos Hexp. unfold train_window_log, bind, Py.modulo, Py.floordiv.
  destruct (args_log_interval a =? 0) eqn:E0; [apply Z.eqb_eq in E0; lia|].
  destruct (args_bptt a =? 0) eqn:E1; [apply Z.eqb_eq in E1; lia|].
  cbn [lift ret]. rewrite Hmod. cbn [Z.eqb andb].
  replace (0 <? batch) with true by (symmetry; apply Z.ltb_lt; lia).
  cbn [lift ret]. rewrite Hexp. reflexivity.
Qed.

End EpochFacts.

(** ** Runs in the small world *)

Module ToyFacts.

Import Toy.
Open Scope float_scope.

(** The script up to the epoch loop: the three streams of [corpus0]. *)
Example main_streams (e : Env float nat unit nat float) (a : args float) :
  args_cuda a = false -> args_batch_size a = 1%Z ->
  main e a corpus0 model0 = Ok (run e a two_steps ten_wide ten_wide (initial a model0)).
Proof.
  intros Hc Hb. unfold main, train_data, val_data, test_data. rewrite Hc, Hb.
  reflexivity.
Qed.

Lemma toy_forward_keeps ces exp sig : forward_keeps_parameters (env ces exp sig).
Proof. intros m x h. reflexivity. Qed.

Lemma evaluate_keeps_parameters_witness :
  forward_keeps_parameters (env [10.0] (fun x => x) never)
  /\ parameter_values
       (model (outcome_state
                 (evaluate (env [10.0] (fun x => x) never) (args0 1 200) ten_wide
                           (initial (args0 1 200) (trained_on model0 1)))))
     = [("w"%string, {| shape := [2%nat]; entries := [1.0; 2.0] |})].
Proof.
  split; [apply toy_forward_keeps|].
  apply (@evaluate_keeps_parameters _ _ _ _ _ _ (env [10.0] (fun x => x) never)
           (args0 1 200) two_steps (initial (args0 1 200) (trained_on model0 1))).
  apply toy_forward_keeps.
Defined.

Lemma evaluate_weighted_average_witness :
  2 <= Py.len ten_wide /\ (0 < args_bptt (args0 1 200))%Z
  /\ evaluate_claim (env [10.0] (fun x => x) never) (args0 1 200) ten_wide
                    (initial (args0 1 200) (trained_on model0 1)).
Proof.
  split; [unfold Py.len; simpl; lia|]. split; [simpl; lia|].
  apply evaluate_weighted_average; [unfold Py.len; simpl; lia | simpl; lia].
Defined.

Example evaluate_two_steps :
  evaluate (env [10.0] (fun x => x) never) (args0 1 200) ten_wide
           (initial (args0 1 200) (trained_on model0 1))
  = Done 5.0 (with_model (module_eval (trained_on model0 1))
                         (initial (args0 1 200) (trained_on model0 1))).
Proof. vm_compute. reflexivity. Qed.

(** C6 as first stated fails: on a stream of a single step the loop
    of [evaluate] has no window, [total_loss] is still the integer 0
    and indexing it raises, where the sum over no window divided by
    the length would be zero. With a window length of zero the loop
    does not even start. *)
Lemma evaluate_single_step :
  val_data (env [10.0] (fun x => x) never) (args0 1 200) corpus1 = Ok one_step
  /\ window_offsets (args_bptt (args0 1 200)) one_step = Ok []
  /\ evaluate (env [10.0] (fun x => x) never) (args0 1 200) one_step
              (initial (args0 1 200) model0)
     = Abort TypeError (with_model (module_eval model0) (initial (args0 1 200) model0))
  /\ ~ evaluate_claim (env [10.0] (fun x => x) never) (args0 1 200) one_step
                      (initial (args0 1 200) model0)
  /\ evaluate (env [10.0] (fun x => x) never) (args1 1 200 0) ten_wide
              (initial (args1 1 200 0) model0)
     = Abort ValueError (with_model (module_eval model0) (initial (args1 1 200 0) model0)).
Proof.
  split; [reflexivity|]. split; [reflexivity|].
  assert (E : evaluate (env [10.0] (fun x => x) never) (args0 1 200) one_step
                       (initial (args0 1 200) model0)
              = Abort TypeError (with_model (module_eval model0)
                                            (initial (args0 1 200) model0)))
    by (vm_compute; reflexivity).
  split; [exact E|]. split; [|vm_compute; reflexivity].
  intros [offsets [g' [_ He]]]. rewrite E in He. discriminate He.
Qed.

Lemma evaluation_stream_count_witness :
  2 <= Py.len ten_wide /\ (0 < args_bptt (args0 1 200))%Z
  /\ stream_count_claim (env [10.0] (fun x => x) never) (args0 1 200) corpus0 20%Z
                        ten_wide (initial (args0 1 200) (trained_on model0 1)).
Proof.
  split; [unfold Py.len; simpl; lia|]. split; [simpl; lia|].
  apply evaluation_stream_count; [unfold Py.len; simpl; lia | simpl; lia].
Defined.

Lemma optimizer_step_witness :
  let e := env [] (fun x => x) never in
  let a := args0 1 200 in
  let g := initial a model0 in
  interrupted e 1%Z 0%Z = false
  /\ math_exp e (window_cross_entropy e a two_steps 0%Z (Var tt false) g) = Ok 3.0
  /\ Forall (fun np => has_gradient (snd np))
            (named_parameters (model_after_backward e a two_steps 0%Z (Var tt false) g))
  /\ optimizer_step_claim e a two_steps 1%Z 0%Z 0%Z (Var tt false) g.
Proof.
  intros e a g.
  assert (Hg : Forall (fun np => has_gradient (snd np))
                 (named_parameters
                    (model_after_backward e a two_steps 0%Z (Var tt false) g))).
  { repeat constructor. intros _. eexists. repeat split; reflexivity. }
  split; [reflexivity|]. split; [reflexivity|]. split; [exact Hg|].
  apply (@optimizer_step _ _ _ _ _ _ e a two_steps 1%Z 0%Z 0%Z (Var tt false) g 3.0);
    [reflexivity | reflexivity | exact Hg].
Defined.

(** One window: the gradient 0.5 is clipped to 0.125 and the weights
    1.0 and 2.0 move by 20 * 0.125. *)
Example one_window_update :
  parameter_values
    (model (outcome_state
              (train_window_step (env [] (fun x => x) never) (args0 1 200) two_steps
                                 1%Z 0%Z 0%Z (Var tt false)
                                 (initial (args0 1 200) model0))))
  = [("w"%string, {| shape := [2%nat]; entries := [-1.5; -0.5] |})].
Proof. vm_compute. reflexivity. Qed.

(** A frozen parameter is skipped, with or without a gradient. *)
Example frozen_parameter_skipped :
  let scalar x := {| shape := [1%nat]; entries := [x] |} in
  sgd_update 20.0
    [("centroids"%string,
      {| requires_grad := false; data := scalar 1.0; grad := Some (scalar 0.5) |});
     ("w"%string, {| requires_grad := true; data := scalar 1.0; grad := Some (scalar 0.5) |})]
  = ([("centroids"%string,
       {| requires_grad := false; data := scalar 1.0; grad := Some (scalar 0.5) |});
      ("w"%string,
       {| requires_grad := true; data := scalar (-9.0); grad := Some (scalar 0.5) |})],
     Ok tt).
Proof. vm_compute. reflexivity. Qed.

(** A gradient with one entry is expanded to the sizes of the
    parameter; one of two entries does not fit a parameter of three. *)
Example one_entry_gradient :
  sgd_update 20.0
    [("w"%string,
      {| requires_grad := true;
         data := {| shape := [2%nat]; entries := [1.0; 2.0] |};
         grad := Some {| shape := [1%nat]; entries := [0.5] |} |})]
  = ([("w"%string,
       {| requires_grad := true;
          data := {| shape := [2%nat]; entries := [-9.0; -8.0] |};
          grad := Some {| shape := [1%nat]; entries := [0.5] |} |})],
     Ok tt).
Proof. vm_compute. reflexivity. Qed.

Example row_gradient :
  option_map (@entries _)
    (match add_ {| shape := [2%nat; 3%nat]; entries := [1.0; 2.0; 3.0; 4.0; 5.0; 6.0] |} 1.0
                {| shape := [3%nat]; entries := [10.0; 20.0; 30.0] |} with
     | Ok d => Some d
     | Raise _ => None
     end)
  = Some [11.0; 22.0; 33.0; 14.0; 25.0; 36.0].
Proof. vm_compute. reflexivity. Qed.

Example column_gradient :
  option_map (@entries _)
    (match add_ {| shape := [2%nat; 3%nat]; entries := [1.0; 2.0; 3.0; 4.0; 5.0; 6.0] |} 1.0
                {| shape := [2%nat; 1%nat]; entries := [10.0; 20.0] |} with
     | Ok d => Some d
     | Raise _ => None
     end)
  = Some [11.0; 12.0; 13.0; 24.0; 25.0; 26.0].
Proof. vm_compute. reflexivity. Qed.

Example mismatched_gradient :
  snd (sgd_update 20.0
         [("w"%string,
           {| requires_grad := true;
              data := {| shape := [3%nat]; entries := [1.0; 2.0; 3.0] |};
              grad := Some {| shape := [2%nat]; entries := [0.5; 0.5] |} |})])
  = Raise RuntimeError.
Proof. reflexivity. Qed.

(** Sizes [3, 2] and [2, 3] have the same number of entries and are
    not the same sizes. *)
Example transposed_gradient :
  snd (sgd_update 20.0
         [("w"%string,
           {| requires_grad := true;
              data := {| shape := [2%nat; 3%nat]; entries := [1.0; 2.0; 3.0; 4.0; 5.0; 6.0] |};
              grad := Some {| shape := [3%nat; 2%nat];
                              entries := [0.5; 0.5; 0.5; 0.5; 0.5; 0.5] |} |})])
  = Raise RuntimeError.
Proof. reflexivity. Qed.

Example trainable_without_gradient :
  snd (sgd_update 20.0
         [("w"%string,
           {| requires_grad := true;
              data := {| shape := [1%nat]; entries := [1.0] |};
              grad := None |})])
  = Raise AttributeError.
Proof. reflexivity. Qed.

(** C5 as first stated fails: a trainable parameter that [backward]
    gave no gradient is not skipped. Here the loss depends on the
    weight ["w"] and not on the weight ["unused"], whose gradient is
    still [None] when the update loop reaches it; reading
    [p.grad.data] raises, and the window ends in [AttributeError]
    with ["w"] updated, where the claim has it end with ["unused"]
    left as it was. *)
Lemma parameter_without_gradient_not_skipped :
  let e := reaching_w (env [] (fun x => x) never) in
  let a := args0 1 200 in
  let g := initial a model1 in
  interrupted e 1%Z 0%Z = false
  /\ map (fun np => (fst np, requires_grad (snd np), option_map (@entries _) (grad (snd np))))
         (named_parameters (model_after_clip e a two_steps 0%Z (Var tt false) g))
     = [("w"%string, true, Some [0.125; 0.125]); ("unused"%string, true, None)]
  /\ (exists g', train_window_step e a two_steps 1%Z 0%Z 0%Z (Var tt false) g
                 = Abort AttributeError g'
                 /\ map (fun np => (fst np, entries (data (snd np))))
                        (named_parameters (model g'))
                    = [("w"%string, [-1.5; -0.5]); ("unused"%string, [7.0])])
  /\ ~ optimizer_step_claim e a two_steps 1%Z 0%Z 0%Z (Var tt false) g.
Proof.
  intros e a g.
  assert (E : exists g', train_window_step e a two_steps 1%Z 0%Z 0%Z (Var tt false) g
                         = Abort AttributeError g'
                         /\ map (fun np => (fst np, entries (data (snd np))))
                                (named_parameters (model g'))
                            = [("w"%string, [-1.5; -0.5]); ("unused"%string, [7.0])])
    by (eexists; vm_compute; split; reflexivity).
  split; [reflexivity|]. split; [vm_compute; reflexivity|]. split; [exact E|].
  destruct E as [g' [E _]]. intros (_ & _ & r & g'' & Hdone & _).
  rewrite E in Hdone. discriminate Hdone.
Qed.

(** The validation losses 5.0, 4.0, 4.5, 3.0: the model is saved after
    epochs 1, 2 and 4, the rate is divided by 4 once, and the model
    loaded for the test is the one saved after epoch 4. *)
Example four_epochs (exp : float -> float) :
  let a := args0 4 200 in
  let final := outcome_state
                 (run (env [10.0; 8.0; 9.0; 6.0] exp never) a
                      two_steps ten_wide ten_wide (initial a model0)) in
  map fst (eval_metrics final) = [5.0; 4.0; 4.5; 3.0]
  /\ saves final = [1; 2; 4]%Z
  /\ best_val_loss final = Some 3.0
  /\ lr final = 5.0
  /\ option_map (@buffers _ _) (model_pt final) = Some 4%nat.
Proof. vm_compute. repeat split. Qed.

(** C1, the failing run: the validation losses 0.0 and 1.0. The second
    loss is not below the first, yet the model is saved again after
    epoch 2, the best loss becomes 1.0 and the rate stays at 20. *)
Theorem zero_best_loss_overwritten (exp : float -> float) :
  let a := args0 2 200 in
  let o := run (env [0.0; 2.0] exp never) a two_steps ten_wide ten_wide
               (initial a model0) in
  main (env [0.0; 2.0] exp never) a corpus0 model0 = Ok o
  /\ map fst (eval_metrics (outcome_state o)) = [0.0; 1.0]
  /\ PrimFloat.ltb 1.0 0.0 = false
  /\ saves (outcome_state o) = [1; 2]%Z
  /\ best_val_loss (outcome_state o) = Some 1.0
  /\ lr (outcome_state o) = 20.0
  /\ save_or_anneal 2%Z 1.0 (with_best_val_loss (Some 0.0) (initial a model0))
     = Done tt (with_best_val_loss (Some 1.0)
                  (torch_save 2%Z (with_best_val_loss (Some 0.0) (initial a model0)))).
Proof. vm_compute. repeat split. Qed.

(** The same with two losses of 0.0, as a vocabulary of one token gives. *)
Example zero_loss_twice (exp : float -> float) :
  let a := args0 2 200 in
  let final := outcome_state
                 (run (env [0.0; 0.0] exp never) a
                      two_steps ten_wide ten_wide (initial a model0)) in
  map fst (eval_metrics final) = [0.0; 0.0]
  /\ saves final = [1; 2]%Z
  /\ lr final = 20.0.
Proof. vm_compute. repeat split. Qed.

(** C7, the failing run: five windows of cross entropy 3.0 each,
    logged every 2 windows. The first progress line, at window 2,
    reports 4.5: the losses of windows 0, 1 and 2 divided by 2. The
    second, at window 4, reports the mean 3.0 of two losses. *)
Theorem first_progress_line_overcounts (exp : float -> float) :
  let a := args0 1 2 in
  let final := outcome_state
                 (train (env [] exp never) a six_steps 1%Z (initial a model0)) in
  map (@row_cross_entropy _) (train_metrics final) = [3.0; 3.0; 3.0; 3.0; 3.0]
  /\ stdout final =
     [ProgressLine 1%Z 2%Z 6%Z 20.0 4.5 (exp 4.5);
      WindowLine 3.0 0.0 3.0 (exp 3.0);
      ProgressLine 1%Z 4%Z 6%Z 20.0 3.0 (exp 3.0);
      WindowLine 3.0 0.0 3.0 (exp 3.0)].
Proof. vm_compute. repeat split. Qed.

Lemma interrupt_before_first_checkpoint_witness :
  let e := env [10.0] (fun x => x) at_first_window in
  let a := args0 4 200 in
  (1 <= args_epochs a)%Z /\ (0 < args_bptt a)%Z /\ (2 <= Py.len two_steps)%Z
  /\ interrupted e 1%Z 0%Z = true
  /\ run e a two_steps ten_wide ten_wide (initial a model0)
     = Abort FileNotFoundError
             (print ExitingEarly
                (print Dashes (with_model (module_train model0) (initial a model0)))).
Proof.
  intros e a.
  split; [simpl; lia|]. split; [simpl; lia|].
  split; [unfold Py.len; simpl; lia|]. split; [reflexivity|].
  apply (@interrupt_before_first_checkpoint _ _ _ _ _ _ e a two_steps ten_wide ten_wide
           model0); [simpl; lia | simpl; lia | unfold Py.len; simpl; lia | reflexivity].
Defined.

(** Ctrl-C in the third epoch, after the model was saved in the first
    two: the test runs on the model saved after epoch 2. *)
Example interrupt_in_third_epoch (exp : float -> float) :
  let a := args0 4 200 in
  let o := run (env [10.0; 8.0; 9.0; 6.0] exp in_third_epoch) a
               two_steps ten_wide ten_wide (initial a model0) in
  (exists g, o = Done 4.0 g)
  /\ saves (outcome_state o) = [1; 2]%Z
  /\ buffers (model (outcome_state o)) = 2%nat
  /\ test_metrics (outcome_state o) = [(4.0, exp 4.0)].
Proof. vm_compute. repeat split. eexists. reflexivity. Qed.

End ToyFacts.

(** * Further properties of the driver *)

(** ** The batchifier: when it returns, and what it returns *)

(** X1: [batchify] makes a grid exactly for a positive stream-count,
    a grid of zero rows when the stream is shorter than the
    stream-count; a stream-count of zero raises [ZeroDivisionError]
    and a negative one raises [RuntimeError] from [narrow] or [view].
    With [--cuda] the grid goes through [.cuda()], which raises where
    CUDA cannot be initialised. *)
Theorem batchify_outcome (cuda_init : result unit) (cuda : bool) (data : tokens) (B : Z) :
  let g := columns_of (firstn (Z.to_nat (B * (Py.len data / B))) data)
                      (Z.to_nat (Py.len data / B)) (Z.to_nat B) in
  batchify cuda_init cuda data B =
  (if B =? 0 then Raise ZeroDivisionError
   else if 0 <? B then (if cuda then Tensor.cuda cuda_init g else Ok g)
   else Raise RuntimeError)
  /\ (Py.len data < B -> g = []).
Proof.
  intros g. split.
  - destruct (0 <? B) eqn:Epos.
    + apply Z.ltb_lt in Epos.
      destruct (B =? 0) eqn:E0; [apply Z.eqb_eq in E0; lia|].
      now apply batchify_columns.
    + apply Z.ltb_ge in Epos. rewrite batchify_nonpositive by exact Epos.
      now destruct (B =? 0).
  - intros Hshort. pose proof (len_nonneg data) as HN. unfold g.
    rewrite Z.div_small by lia. reflexivity.
Qed.

Lemma t_columns (data : tokens) (nbatch bsz : nat) :
  (0 < nbatch)%nat -> length data = (bsz * nbatch)%nat ->
  Tensor.t (columns_of data nbatch bsz) =
  map (fun j => firstn nbatch (skipn (j * nbatch) data)) (seq 0 bsz).
Proof.
  intros Hn Hlen. destruct nbatch as [|n]; [lia|].
  set (row := fun r => map (fun j => nth (j * S n + r) data 0) (seq 0 bsz)).
  assert (Hg : columns_of data (S n) bsz = row 0%nat :: map row (seq 1 n))
    by reflexivity.
  rewrite Hg. cbn [Tensor.t]. rewrite <- Hg.
  unfold row at 1. rewrite length_map, length_seq.
  apply map_ext_in. intros j Hj. apply in_seq in Hj.
  unfold columns_of. rewrite map_map.
  rewrite (firstn_skipn_nth 0) by nia.
  apply map_ext_in. intros r Hr. apply in_seq in Hr.
  rewrite (nth_indep _ 0 (nth (0 * S n + r) data 0))
    by (rewrite length_map, length_seq; lia).
  rewrite (map_nth (fun j => nth (j * S n + r) data 0) (seq 0 bsz) 0%nat).
  now rewrite seq_nth by lia.
Qed.

(** X2: transposing the grid back and laying its rows end to end
    gives the stream again, up to the tokens that were trimmed. *)
Theorem batchify_round_trip (cuda_init : result unit) (cuda : bool) (data : tokens)
    (B : Z) (g : grid) :
  batchify cuda_init cuda data B = Ok g ->
  Tensor.flatten (Tensor.t g) = firstn (Z.to_nat (B * (Py.len data / B))) data.
Proof.
  intros Hg. destruct (batchify_ok_inv _ _ _ _ Hg) as [HB ->].
  pose proof (len_nonneg data) as HN0.
  set (N := Py.len data) in *.
  assert (Hq0 : 0 <= N / B) by (apply Z.div_pos; lia).
  destruct (Z.eq_dec (N / B) 0) as [Hz | Hnz].
  { rewrite Hz, Z.mul_0_r. reflexivity. }
  assert (Hq : 0 < N / B) by lia.
  assert (Hle : B * (N / B) <= N) by (apply Z.mul_div_le; lia).
  set (d := firstn (Z.to_nat (B * (N / B))) data).
  assert (Hd : length d = (Z.to_nat B * Z.to_nat (N / B))%nat).
  { unfold d. rewrite length_firstn. unfold N, Py.len in *. nia. }
  rewrite t_columns by (try lia; exact Hd).
  unfold Tensor.flatten. rewrite concat_chunks.
  apply firstn_all2. lia.
Qed.

Lemma batchify_round_trip_witness :
  batchify (Ok tt) false [10; 11; 12; 13; 14; 15; 16] 3 = Ok [[10; 12; 14]; [11; 13; 15]]
  /\ Tensor.flatten (Tensor.t [[10; 12; 14]; [11; 13; 15]]) = [10; 11; 12; 13; 14; 15].
Proof.
  split; [reflexivity|].
  apply (@batchify_round_trip (Ok tt) false [10; 11; 12; 13; 14; 15; 16] 3
           [[10; 12; 14]; [11; 13; 15]]).
  reflexivity.
Defined.

(** ** The batchifier and the window sampler together *)

Lemma batchify_cell (cuda_init : result unit) (cuda : bool) (data : tokens) (B : Z)
    (g : grid) (r c : Z) :
  batchify cuda_init cuda data B = Ok g ->
  0 <= r < Py.len g -> 0 <= c < B ->
  Tensor.cell g r c = Py.item 0 data (c * Py.len g + r).
Proof.
  intros Hg Hr Hc. destruct (batchify_ok_inv _ _ _ _ Hg) as [HB ->].
  pose proof (len_nonneg data) as HN0.
  set (N := Py.len data) in *.
  assert (Hq : 0 <= N / B) by (apply Z.div_pos; lia).
  assert (Hrows : Py.len (columns_of (firstn (Z.to_nat (B * (N / B))) data)
                                     (Z.to_nat (N / B)) (Z.to_nat B)) = N / B).
  { unfold Py.len.
    rewrite (proj1 (columns_of_shape _ (Z.to_nat (N / B)) (Z.to_nat B))). lia. }
  rewrite Hrows in *.
  rewrite columns_of_cell by lia.
  rewrite item_nth by nia. rewrite nth_firstn.
  replace (Z.to_nat c * Z.to_nat (N / B) + Z.to_nat r)%nat
    with (Z.to_nat (c * (N / B) + r)) by nia.
  replace (Z.to_nat (c * (N / B) + r) <? Z.to_nat (B * (N / B)))%nat with true
    by (symmetry; apply Nat.ltb_lt; nia).
  reflexivity.
Qed.

(** X3: on a batchified stream, the target of every position of a
    window is the token that follows the input token in the stream:
    the input at step [k] of stream [c] is token [c * steps + i + k]
    and its target is token [c * steps + i + k + 1]. *)
Theorem target_is_next_token (cuda_init : result unit) (cuda : bool) (data : tokens)
    (B : Z) (g : grid) (bptt i k c : Z) :
  batchify cuda_init cuda data B = Ok g ->
  0 < bptt -> 0 <= i < Py.len g - 1 ->
  0 <= k < seq_len bptt g i -> 0 <= c < B ->
  Tensor.cell (fst (get_batch bptt g i)) k c = Py.item 0 data (c * Py.len g + i + k)
  /\ Py.item 0 (snd (get_batch bptt g i)) (k * B + c)
     = Py.item 0 data (c * Py.len g + i + k + 1).
Proof.
  intros Hg Hbptt Hi Hk Hc.
  pose proof (batchify_rectangular _ _ _ _ Hg) as Hrect.
  unfold get_batch. cbn [fst snd].
  set (L := seq_len bptt g i) in *.
  assert (HL : L <= Py.len g - 1 - i) by (unfold L, seq_len; lia).
  split.
  - unfold Tensor.cell at 1. rewrite item_slice by lia.
    fold (Tensor.cell g (i + k) c).
    rewrite (@batchify_cell cuda_init cuda data B g (i + k) c Hg) by lia. f_equal. lia.
  - rewrite item_flatten; [|apply rectangular_slice, Hrect | rewrite len_slice; lia | lia].
    unfold Tensor.cell at 1. rewrite item_slice by lia.
    fold (Tensor.cell g (i + 1 + k) c).
    rewrite (@batchify_cell cuda_init cuda data B g (i + 1 + k) c Hg) by lia. f_equal. lia.
Qed.

Lemma target_is_next_token_witness :
  batchify (Ok tt) false [10; 11; 12; 13; 14; 15; 16] 2
  = Ok [[10; 13]; [11; 14]; [12; 15]]
  /\ 0 < 5 /\ 0 <= 0 < Py.len [[10; 13]; [11; 14]; [12; 15]] - 1
  /\ 0 <= 1 < seq_len 5 [[10; 13]; [11; 14]; [12; 15]] 0 /\ 0 <= 1 < 2
  /\ Tensor.cell (fst (get_batch 5 [[10; 13]; [11; 14]; [12; 15]] 0)) 1 1 = 14
  /\ Py.item 0 (snd (get_batch 5 [[10; 13]; [11; 14]; [12; 15]] 0)) (1 * 2 + 1) = 15.
Proof.
  assert (Hg : batchify (Ok tt) false [10; 11; 12; 13; 14; 15; 16] 2
               = Ok [[10; 13]; [11; 14]; [12; 15]]) by reflexivity.
  assert (Hi : 0 <= 0 < Py.len [[10; 13]; [11; 14]; [12; 15]] - 1)
    by (unfold Py.len; simpl; lia).
  assert (Hk : 0 <= 1 < seq_len 5 [[10; 13]; [11; 14]; [12; 15]] 0)
    by (unfold seq_len, Py.len; simpl; lia).
  split; [exact Hg|]. split; [lia|]. split; [exact Hi|]. split; [exact Hk|].
  split; [lia|].
  apply (@target_is_next_token (Ok tt) false [10; 11; 12; 13; 14; 15; 16] 2
           [[10; 13]; [11; 14]; [12; 15]] 5 0 1 1 Hg ltac:(lia) Hi Hk ltac:(lia)).
Defined.

(** ** The windows of a stream *)

Lemma range_ascending_exact (stop step : Z) :
  0 < step ->
  Py.range 0 stop step =
  Ok (map (fun k => 0 + Z.of_nat k * step)
          (seq 0 (Z.to_nat ((stop + step - 1) / step)))).
Proof.
  intros Hstep. unfold Py.range.
  destruct (step =? 0) eqn:E0; [apply Z.eqb_eq in E0; lia|].
  destruct (0 <? step) eqn:E1; [|apply Z.ltb_ge in E1; lia].
  now replace (stop - 0 + step - 1) with (stop + step - 1) by lia.
Qed.

Lemma firstn_min_length {A} (b : nat) (l : list A) :
  firstn (Nat.min b (length l)) l = firstn b l.
Proof.
  rewrite <- (firstn_all l) at 3. now rewrite firstn_firstn.
Qed.

Lemma concat_concat_map {A X} (f : X -> list (list A)) (l : list X) :
  concat (map (fun x => concat (f x)) l) = concat (concat (map f l)).
Proof.
  induction l as [|x l IH]; [reflexivity|].
  cbn [map concat]. now rewrite concat_app, IH.
Qed.

Lemma window_input_chunk (bptt : Z) (source : grid) (k : nat) :
  0 < bptt -> Z.of_nat k * bptt < Py.len source - 1 ->
  fst (get_batch bptt source (0 + Z.of_nat k * bptt)) =
  firstn (Z.to_nat bptt)
         (skipn (k * Z.to_nat bptt) (firstn (Z.to_nat (Py.len source - 1)) source)).
Proof.
  intros Hb Hk. unfold get_batch, seq_len. cbn [fst].
  set (i := 0 + Z.of_nat k * bptt).
  assert (Hi : 0 <= i < Py.len source - 1) by (unfold i; nia).
  rewrite slice_in_range by lia.
  rewrite skipn_firstn_comm, firstn_firstn.
  replace (Z.to_nat i) with (k * Z.to_nat bptt)%nat by (unfold i; nia).
  f_equal. unfold i. nia.
Qed.

Lemma window_target_chunk (bptt : Z) (source : grid) (k : nat) :
  0 < bptt -> Z.of_nat k * bptt < Py.len source - 1 ->
  snd (get_batch bptt source (0 + Z.of_nat k * bptt)) =
  concat (firstn (Z.to_nat bptt) (skipn (k * Z.to_nat bptt) (skipn 1 source))).
Proof.
  intros Hb Hk. unfold get_batch, seq_len, Tensor.flatten. cbn [snd].
  set (i := 0 + Z.of_nat k * bptt).
  assert (Hi : 0 <= i < Py.len source - 1) by (unfold i; nia).
  rewrite slice_in_range by lia.
  rewrite skipn_skipn.
  replace (Z.to_nat (i + 1)) with (k * Z.to_nat bptt + 1)%nat by (unfold i; nia).
  f_equal.
  rewrite <- (firstn_min_length (Z.to_nat bptt)). f_equal.
  rewrite length_skipn. unfold Py.len in *. unfold i. nia.
Qed.

(** X4: the windows of a pass tile the stream. Laid end to end, the
    inputs of the windows are all steps of the grid but the last, and
    the targets are all steps but the first, flattened: no step is
    skipped between two windows and none is used twice. *)
Theorem windows_tile (bptt : Z) (source : grid) (offsets : list Z) :
  0 < bptt ->
  window_offsets bptt source = Ok offsets ->
  concat (map (fun i => fst (get_batch bptt source i)) offsets)
  = Py.slice source 0 (Py.len source - 1)
  /\ concat (map (fun i => snd (get_batch bptt source i)) offsets)
     = Tensor.flatten (Py.slice source 1 (Py.len source)).
Proof.
  intros Hb Hoff. unfold window_offsets in Hoff.
  rewrite range_ascending_exact in Hoff by exact Hb. injection Hoff as <-.
  destruct source as [|row rest].
  { change (Py.len (@nil (list Z))) with 0.
    assert ((0 - 1 + bptt - 1) / bptt < 1) by (apply Z.div_lt_upper_bound; lia).
    replace (Z.to_nat ((0 - 1 + bptt - 1) / bptt)) with 0%nat by lia.
    now split. }
  set (source := row :: rest) in *.
  set (M := Py.len source - 1).
  assert (HM : 0 <= M) by (unfold M, source, Py.len; cbn [length]; lia).
  set (n := Z.to_nat ((M + bptt - 1) / bptt)).
  pose proof (Z.mul_div_le (M + bptt - 1) bptt Hb) as Hle.
  pose proof (Z.mul_succ_div_gt (M + bptt - 1) bptt Hb) as Hgt.
  assert (Hq : 0 <= (M + bptt - 1) / bptt) by (apply Z.div_pos; lia).
  assert (Hin : forall k, In k (seq 0 n) -> Z.of_nat k * bptt < Py.len source - 1).
  { intros k Hk. apply in_seq in Hk. fold M. unfold n in Hk. nia. }
  rewrite !map_map. split.
  - rewrite (map_ext_in _ (fun k => firstn (Z.to_nat bptt)
                                      (skipn (k * Z.to_nat bptt)
                                             (firstn (Z.to_nat M) source)))).
    + rewrite concat_chunks, slice_in_range by (fold M; lia).
      cbn [skipn Z.to_nat]. fold M. rewrite Z.sub_0_r.
      apply firstn_all2. rewrite length_firstn. unfold n. nia.
    + intros k Hk. apply window_input_chunk; [exact Hb | now apply Hin].
  - rewrite (map_ext_in _ (fun k => concat (firstn (Z.to_nat bptt)
                                              (skipn (k * Z.to_nat bptt)
                                                     (skipn 1 source))))).
    + rewrite concat_concat_map, concat_chunks.
      rewrite slice_in_range by (unfold M in HM; lia).
      unfold Tensor.flatten. f_equal.
      assert (Hlen : length (skipn 1 source) = Z.to_nat M)
        by (rewrite length_skipn; unfold M, Py.len; lia).
      rewrite (firstn_all2 (n := n * Z.to_nat bptt)) by (rewrite Hlen; unfold n; nia).
      symmetry. apply firstn_all2. rewrite Hlen. fold M. lia.
    + intros k Hk. apply window_target_chunk; [exact Hb | now apply Hin].
Qed.

Lemma windows_tile_witness :
  0 < 2 /\ window_offsets 2 [[0; 1]; [2; 3]; [4; 5]; [6; 7]] = Ok [0; 2]
  /\ concat (map (fun i => fst (get_batch 2 [[0; 1]; [2; 3]; [4; 5]; [6; 7]] i)) [0; 2])
     = [[0; 1]; [2; 3]; [4; 5]]
  /\ concat (map (fun i => snd (get_batch 2 [[0; 1]; [2; 3]; [4; 5]; [6; 7]] i)) [0; 2])
     = [2; 3; 4; 5; 6; 7].
Proof.
  split; [lia|]. split; [reflexivity|].
  apply (@windows_tile 2 [[0; 1]; [2; 3]; [4; 5]; [6; 7]] [0; 2]); [lia | reflexivity].
Defined.

(** X5: a pass over a grid of at least two steps has
    [(steps - 2) // bptt + 1] windows, that is [ceil((steps - 1) / bptt)]. *)
Theorem window_count (bptt : Z) (source : grid) (offsets : list Z) :
  0 < bptt -> 2 <= Py.len source ->
  window_offsets bptt source = Ok offsets ->
  Py.len offsets = (Py.len source - 2) / bptt + 1.
Proof.
  intros Hb Hlen Hoff. unfold window_offsets in Hoff.
  rewrite range_ascending_exact in Hoff by exact Hb. injection Hoff as <-.
  unfold Py.len at 1. rewrite length_map, length_seq.
  replace (Py.len source - 1 + bptt - 1) with (Py.len source - 2 + 1 * bptt) by lia.
  rewrite Z.div_add by lia.
  assert (0 <= (Py.len source - 2) / bptt) by (apply Z.div_pos; lia).
  lia.
Qed.

Lemma window_count_witness :
  0 < 5 /\ 2 <= Py.len (repeat [0] 50)
  /\ window_offsets 5 (repeat [0] 50) = Ok [0; 5; 10; 15; 20; 25; 30; 35; 40; 45]
  /\ Py.len [0; 5; 10; 15; 20; 25; 30; 35; 40; 45] = (Py.len (repeat [0] 50) - 2) / 5 + 1.
Proof.
  split; [lia|]. split; [unfold Py.len; simpl; lia|]. split; [reflexivity|].
  apply (@window_count 5 (repeat [0] 50) [0; 5; 10; 15; 20; 25; 30; 35; 40; 45]);
    [lia | unfold Py.len; simpl; lia | reflexivity].
Defined.

(** ** Hidden states *)

Lemma hidden_induction {H} (P : hidden H -> Prop) :
  (forall d history, P (Var d history)) ->
  (forall hs, Forall P hs -> P (Tuple hs)) ->
  forall h, P h.
Proof.
  intros HVar HTuple. fix IH 1. intros [d history | hs]; [apply HVar|].
  apply HTuple. induction hs as [|h hs IHhs]; constructor; [apply IH | exact IHhs].
Qed.

(** X6: [repackage_hidden] keeps the nesting of a hidden state and the
    data of every variable in it, in place, and leaves no variable
    with a history, however deep the tuples are nested. *)
Theorem repackage_hidden_detaches {H} (h : hidden H) :
  skeleton (repackage_hidden h) = skeleton h
  /\ map fst (leaves (repackage_hidden h)) = map fst (leaves h)
  /\ Forall (fun l => snd l = false) (leaves (repackage_hidden h)).
Proof.
  induction h as [d history | hs IH] using hidden_induction.
  - cbn. repeat split. repeat constructor.
  - cbn [repackage_hidden skeleton leaves]. rewrite !map_map.
    split; [|split].
    + f_equal. apply map_ext_in. intros h Hh.
      rewrite Forall_forall in IH. apply (IH h Hh).
    + rewrite !concat_map, !map_map. f_equal. apply map_ext_in. intros h Hh.
      rewrite Forall_forall in IH. apply (IH h Hh).
    + apply Forall_concat. apply Forall_forall. intros l Hl.
      apply in_map_iff in Hl. destruct Hl as [h [<- Hh]].
      rewrite Forall_forall in IH. apply (IH h Hh).
Qed.

(** X7: detaching twice is detaching once. *)
Theorem repackage_hidden_idempotent {H} (h : hidden H) :
  repackage_hidden (repackage_hidden h) = repackage_hidden h.
Proof.
  induction h as [d history | hs IH] using hidden_induction; [reflexivity|].
  cbn [repackage_hidden]. rewrite map_map. f_equal.
  apply map_ext_in. intros h Hh. rewrite Forall_forall in IH. apply (IH h Hh).
Qed.

Example repackage_lstm_state :
  repackage_hidden (Tuple [Var 1 true; Tuple [Var 2 true; Var 3 false]])
  = Tuple [Var 1 false; Tuple [Var 2 false; Var 3 false]].
Proof. reflexivity. Qed.

(** ** The update loop *)

Section UpdateFacts.

Context {R : Type} {num : PyFloat R}.

Lemma Forall2_same {A} (P : A -> A -> Prop) (l : list A) :
  (forall x, P x x) -> Forall2 P l l.
Proof. intros HP. induction l; constructor; auto. Qed.

(** X8: the update loop writes nothing but the data of trainable
    parameters. Whether it completes or raises half way, the names,
    the order, the [requires_grad] flags and the gradients are those
    it found, and every parameter that is not trainable is as it was. *)
Theorem sgd_update_touches_data_only (lr : R) (ps : list (string * parameter R)) :
  map (fun np => (fst np, requires_grad (snd np), grad (snd np))) (fst (sgd_update lr ps))
  = map (fun np => (fst np, requires_grad (snd np), grad (snd np))) ps
  /\ Forall2 (fun np np' => requires_grad (snd np) = false -> np' = np)
             ps (fst (sgd_update lr ps)).
Proof.
  induction ps as [|[name p] rest [IHm IHf]].
  - split; [reflexivity | constructor].
  - cbn [sgd_update].
    destruct (requires_grad p) eqn:Erg.
    + destruct (grad p) as [g|] eqn:Eg.
      * destruct (add_ (data p) (fneg lr) g) as [d|e].
        -- destruct (sgd_update lr rest) as [rest' r]. cbn [fst snd map] in *.
           split.
           ++ rewrite IHm. unfold set_data. cbn [requires_grad grad]. reflexivity.
           ++ constructor; [cbn; congruence | exact IHf].
        -- cbn [fst]. split; [reflexivity|].
           apply Forall2_same. auto.
      * cbn [fst]. split; [reflexivity|]. apply Forall2_same. auto.
    + destruct (sgd_update lr rest) as [rest' r]. cbn [fst snd map] in *.
      split; [now rewrite IHm|]. constructor; [auto | exact IHf].
Qed.

Lemma expandable_rev_nth (from to : list nat) :
  Tensor.expandable_rev from to = true
  <-> (length from <= length to)%nat
      /\ forall k, (k < length from)%nat ->
           nth k from 1%nat = nth k to 1%nat \/ nth k from 1%nat = 1%nat.
Proof.
  revert to. induction from as [|d from IH]; intros to.
  - cbn. split; [intros _; split; [lia | intros k Hk; lia] | reflexivity].
  - destruct to as [|d' to]; cbn [Tensor.expandable_rev length].
    + split; [intros Hf; discriminate Hf | intros [Hl _]; lia].
    + rewrite andb_true_iff, orb_true_iff, !Nat.eqb_eq, IH. split.
      * intros [Hd [Hlen Hrest]]. split; [lia|].
        intros [|k] Hk; cbn [nth]; [exact Hd | apply Hrest; lia].
      * intros [Hlen Hall]. split; [exact (Hall 0%nat ltac:(lia))|].
        split; [lia|]. intros k Hk. apply (Hall (S k)). lia.
Qed.

Lemma expandable_broadcasts (from to : list nat) :
  Tensor.expandable from to = true <-> broadcasts_to from to.
Proof.
  unfold Tensor.expandable, broadcasts_to.
  now rewrite expandable_rev_nth, !length_rev.
Qed.

(** X9: the update loop completes exactly when every trainable
    parameter has a gradient whose sizes broadcast to the sizes of
    the parameter (equal sizes do, and so does a gradient of one
    entry); a trainable parameter whose gradient is missing, or whose
    gradient does not broadcast, makes it raise. *)
Theorem sgd_update_completes_iff (lr : R) (ps : list (string * parameter R)) :
  snd (sgd_update lr ps) = Ok tt <-> Forall (fun np => can_update (snd np)) ps.
Proof.
  induction ps as [|[name p] rest IH]; [split; [constructor | reflexivity]|].
  cbn [sgd_update].
  assert (Hcons : forall P : Prop,
             (P <-> can_update p /\ Forall (fun np => can_update (snd np)) rest) ->
             (P <-> Forall (fun np => can_update (snd np)) ((name, p) :: rest))).
  { intros P HP. rewrite HP. split.
    - intros [Hp Hrest]. now constructor.
    - intros Hall. inversion Hall; subst. now split. }
  apply Hcons. unfold can_update at 1.
  destruct (requires_grad p) eqn:Erg.
  - destruct (grad p) as [g|] eqn:Eg.
    + unfold add_.
      destruct (Tensor.expandable (shape g) (shape (data p))) eqn:Ex.
      * destruct (sgd_update lr rest) as [rest' r]. cbn [snd] in *.
        rewrite IH. split; [|tauto]. intros Hrest. split; [|exact Hrest].
        intros _. exists g. split; [reflexivity|]. now apply expandable_broadcasts.
      * cbn [snd]. split; [intros Hr; discriminate Hr|].
        intros [Hp _]. destruct (Hp eq_refl) as [g' [Hg' Hb]].
        injection Hg' as <-. apply expandable_broadcasts in Hb. congruence.
    + cbn [snd]. split; [intros Hr; discriminate Hr|].
      intros [Hp _]. destruct (Hp eq_refl) as [g' [Hg' _]]. discriminate Hg'.
  - destruct (sgd_update lr rest) as [rest' r]. cbn [snd] in *.
    rewrite IH. split; [|tauto]. intros Hrest. split; [|exact Hrest].
    intros Hf. discriminate Hf.
Qed.

End UpdateFacts.

(** ** What a pass leaves untouched *)

Section RunFacts.

Context {R : Type} {num : PyFloat R} {B H logits loss : Type}.
Variable env : Env R B H logits loss.

Lemma only_model_refl (g : globals R B) : only_model g g.
Proof. unfold only_model. tauto. Qed.

Lemma only_model_trans (g s t : globals R B) :
  only_model g s -> only_model s t -> only_model g t.
Proof. unfold only_model. intuition congruence. Qed.

Lemma only_model_with_model (m : module R B) (g : globals R B) :
  only_model g (with_model m g).
Proof. unfold only_model. cbn. tauto. Qed.

Lemma training_effect_refl (a : args R) (g : globals R B) : training_effect env a g g.
Proof.
  unfold training_effect. repeat (split; [reflexivity|]).
  split; [exists []; split; [now rewrite app_nil_r | constructor]|].
  exists []. now rewrite app_nil_r.
Qed.

Lemma training_effect_trans (a : args R) (g s t : globals R B) :
  training_effect env a g s -> training_effect env a s t -> training_effect env a g t.
Proof.
  unfold training_effect.
  intros (H1 & H2 & H3 & H4 & H5 & H6 & (rows & Hrows & Hok) & (lines & Hlines))
         (K1 & K2 & K3 & K4 & K5 & K6 & (rows' & Hrows' & Hok') & (lines' & Hlines')).
  repeat (split; [congruence|]). split.
  - exists (rows ++ rows'). split; [rewrite Hrows', Hrows; now rewrite app_assoc|].
    apply Forall_app. now split.
  - exists (lines ++ lines'). rewrite Hlines', Hlines. now rewrite app_assoc.
Qed.

Lemma only_model_training_effect (a : args R) (g s : globals R B) :
  only_model g s -> training_effect env a g s.
Proof.
  unfold only_model, training_effect.
  intros (H1 & H2 & H3 & H4 & H5 & H6 & H7 & H8).
  repeat (split; [assumption|]). split.
  - exists []. split; [now rewrite app_nil_r | constructor].
  - exists []. now rewrite app_nil_r.
Qed.

Lemma evaluate_window_only_model (a : args R) (src : grid) (i : Z)
    (loc : accum R * hidden H) (s : globals R B) :
  only_model s (outcome_state (evaluate_window env a src i loc s)).
Proof.
  destruct loc as [total h]. unfold evaluate_window.
  destruct (get_batch (args_bptt a) src i) as [input targets].
  unfold bind, call.
  destruct (forward env (model s) input h) as [[output h'] m']. cbn.
  apply only_model_with_model.
Qed.

Lemma evaluate_frame (a : args R) (data_source : grid) (g : globals R B) :
  only_model g (outcome_state (evaluate env a data_source g)).
Proof.
  unfold evaluate.
  rewrite outcome_state_bind. cbn [on_model modify].
  rewrite outcome_state_bind. cbn [get].
  rewrite outcome_state_bind.
  set (g1 := with_model (module_eval (model g)) g).
  assert (Hg1 : only_model g g1) by apply only_model_with_model.
  destruct (window_offsets (args_bptt a) data_source) as [offsets | e];
    cbn [lift ret raise]; [|exact Hg1].
  rewrite outcome_state_bind.
  pose proof (@for_each_keeps _ _ _ (only_model g)
                (evaluate_window env a data_source)
                (fun i loc s Hs =>
                   only_model_trans Hs (evaluate_window_only_model a data_source i loc s))
                offsets (PyInt 0, init_hidden env (model g1) eval_batch_size) g1 Hg1)
    as Hloop.
  destruct (for_each offsets (evaluate_window env a data_source)
              (PyInt 0, init_hidden env (model g1) eval_batch_size) g1)
    as [loc g2 | e g2]; cbn in Hloop; [|exact Hloop].
  rewrite outcome_state_bind.
  destruct (accum_item (fst loc)); cbn; exact Hloop.
Qed.

(** X10: [evaluate] touches nothing but the network: the learning
    rate, the best loss, the three metrics records, the checkpoint
    file and the output are after it what they were before it,
    whether it returns or raises. *)
Theorem evaluate_only_model (a : args R) (data_source : grid) (g : globals R B) :
  let s := outcome_state (evaluate env a data_source g) in
  lr s = lr g
  /\ best_val_loss s = best_val_loss g
  /\ train_metrics s = train_metrics g
  /\ eval_metrics s = eval_metrics g
  /\ test_metrics s = test_metrics g
  /\ model_pt s = model_pt g
  /\ saves s = saves g
  /\ stdout s = stdout g.
Proof.
  intros s. pose proof (evaluate_frame a data_source g) as Hframe.
  unfold only_model in Hframe. exact Hframe.
Qed.

(** X11: on a stream with fewer than two steps [evaluate] has no
    window to run: it switches the network to evaluation mode and
    raises [TypeError] on [total_loss[0]]. *)
Theorem evaluate_without_window (a : args R) (data_source : grid) (g : globals R B) :
  0 < args_bptt a -> Py.len data_source <= 1 ->
  evaluate env a data_source g
  = Abort TypeError (with_model (module_eval (model g)) g).
Proof.
  intros Hb Hlen. unfold evaluate, window_offsets.
  rewrite range_ascending_exact by exact Hb.
  assert (Hn : (Py.len data_source - 1 + args_bptt a - 1) / args_bptt a < 1)
    by (apply Z.div_lt_upper_bound; lia).
  replace (Z.to_nat ((Py.len data_source - 1 + args_bptt a - 1) / args_bptt a))
    with 0%nat by lia.
  reflexivity.
Qed.

(** X12: on a stream with fewer than two steps [train] trains on
    nothing and says nothing: it switches the network to training
    mode and returns. *)
Theorem train_without_window (a : args R) (train_data : grid) (epoch : Z)
    (g : globals R B) :
  0 < args_bptt a -> Py.len train_data <= 1 ->
  train env a train_data epoch g = Done tt (with_model (module_train (model g)) g).
Proof.
  intros Hb Hlen. unfold train, window_offsets.
  rewrite range_ascending_exact by exact Hb.
  assert (Hn : (Py.len train_data - 1 + args_bptt a - 1) / args_bptt a < 1)
    by (apply Z.div_lt_upper_bound; lia).
  replace (Z.to_nat ((Py.len train_data - 1 + args_bptt a - 1) / args_bptt a))
    with 0%nat by lia.
  reflexivity.
Qed.

End RunFacts.

(** ** What a training pass does to the state *)

Section TrainingFacts.

Context {R : Type} {num : PyFloat R} {B H logits loss : Type}.
Variable env : Env R B H logits loss.

(** A state reached by changing the network and appending the given
    rows and lines. *)
Ltac effect_with rows lines :=
  unfold training_effect; cbn;
  repeat (split; [reflexivity|]);
  split; [exists rows; split; [rewrite ?app_nil_r; reflexivity|]
         | exists lines; rewrite ?app_nil_r; reflexivity].

Lemma train_window_step_effect (a : args R) (train_data : grid) (epoch batch i : Z)
    (h : hidden H) (g : globals R B) :
  training_effect env a g (outcome_state (train_window_step env a train_data epoch batch i h g))
  /\ forall hr s, train_window_step env a train_data epoch batch i h g = Done hr s ->
       train_metrics s = train_metrics g ++ [snd hr].
Proof.
  unfold train_window_step.
  destruct (interrupted env epoch batch).
  { unfold bind. cbn. split; [apply training_effect_refl | intros ? ? Hd; discriminate Hd]. }
  destruct (get_batch (args_bptt a) train_data i) as [input targets].
  unfold bind, on_model, modify, call, ret. cbn [model with_model].
  destruct (forward env (zero_grad (model g)) input (repackage_hidden h))
    as [[output h'] m1].
  cbn [model with_model].
  destruct (calculate_loss_values env m1 output targets) as [lv m2].
  cbn [model with_model].
  destruct (math_exp env (loss_data env (fst lv))) as [ppl | e] eqn:Eexp;
    cbn [lift ret raise].
  2:{ split; [|intros ? ? Hd; discriminate Hd]. effect_with (@nil (train_row R)) (@nil (line R)).
      constructor. }
  unfold sgd_step. cbn [model lr with_model append_train_metrics].
  destruct (sgd_update (lr g) _) as [ps r].
  assert (Hrow : window_row env a
                   {| row_train_loss := loss_data env (combined_loss env a lv);
                      row_center_loss := loss_data env (snd lv);
                      row_cross_entropy := loss_data env (fst lv);
                      row_perplexity := ppl |}).
  { exists lv. cbn. repeat split. exact Eexp. }
  destruct r as [[]|e].
  - split.
    + effect_with [{| row_train_loss := loss_data env (combined_loss env a lv);
                       row_center_loss := loss_data env (snd lv);
                       row_cross_entropy := loss_data env (fst lv);
                       row_perplexity := ppl |}] (@nil (line R)).
      now constructor.
    + intros hr s Heq. injection Heq as <- <-. reflexivity.
  - split; [|intros ? ? Hd; discriminate Hd].
    effect_with [{| row_train_loss := loss_data env (combined_loss env a lv);
                     row_center_loss := loss_data env (snd lv);
                     row_cross_entropy := loss_data env (fst lv);
                     row_perplexity := ppl |}] (@nil (line R)).
    now constructor.
Qed.

Lemma train_window_log_effect (a : args R) (train_data : grid) (epoch batch : Z)
    (total_loss : R) (row : train_row R) (g : globals R B) :
  training_effect env a g
    (outcome_state (train_window_log env a train_data epoch batch total_loss row g))
  /\ train_metrics
       (outcome_state (train_window_log env a train_data epoch batch total_loss row g))
     = train_metrics g.
Proof.
  unfold train_window_log, bind.
  destruct (Py.modulo batch (args_log_interval a)) as [r|e]; cbn [lift ret raise];
    [|split; [apply training_effect_refl | reflexivity]].
  destruct ((r =? 0) && (0 <? batch));
    [|cbn; split; [apply training_effect_refl | reflexivity]].
  destruct (Py.floordiv (Py.len train_data) (args_bptt a)) as [nb|e];
    cbn [lift ret raise]; [|split; [apply training_effect_refl | reflexivity]].
  destruct (math_exp env _) as [ppl|e]; cbn [lift ret raise];
    [|split; [apply training_effect_refl | reflexivity]].
  cbn. split; [|reflexivity].
  unfold training_effect. cbn. repeat (split; [reflexivity|]). split.
  - exists []. split; [now rewrite app_nil_r | constructor].
  - eexists. rewrite <- app_assoc. reflexivity.
Qed.

Lemma train_window_unfold (a : args R) (train_data : grid) (epoch batch i : Z)
    (total : R) (h : hidden H) (g : globals R B) :
  train_window env a train_data epoch (batch, i) (total, h) g =
  match train_window_step env a train_data epoch batch i h g with
  | Done hr s1 =>
      match train_window_log env a train_data epoch batch total (snd hr) s1 with
      | Done t s2 => Done (t, fst hr) s2
      | Abort e s2 => Abort e s2
      end
  | Abort e s1 => Abort e s1
  end.
Proof. reflexivity. Qed.

Lemma train_window_effect (a : args R) (train_data : grid) (epoch : Z)
    (bi : Z * Z) (loc : R * hidden H) (g : globals R B) :
  training_effect env a g (outcome_state (train_window env a train_data epoch bi loc g))
  /\ forall loc' s, train_window env a train_data epoch bi loc g = Done loc' s ->
       length (train_metrics s) = S (length (train_metrics g)).
Proof.
  destruct bi as [batch i]. destruct loc as [total h].
  rewrite train_window_unfold.
  destruct (train_window_step_effect a train_data epoch batch i h g) as [Hstep Hrow].
  destruct (train_window_step env a train_data epoch batch i h g) as [hr s1 | e s1];
    cbn [outcome_state] in *;
    [|split; [exact Hstep | intros ? ? Hd; discriminate Hd]].
  specialize (Hrow hr s1 eq_refl).
  destruct (train_window_log_effect a train_data epoch batch total (snd hr) s1)
    as [Hlog Hsame].
  destruct (train_window_log env a train_data epoch batch total (snd hr) s1)
    as [t s2 | e s2]; cbn [outcome_state] in *.
  - split; [exact (training_effect_trans Hstep Hlog)|].
    intros loc' s Heq. injection Heq as _ <-.
    rewrite Hsame, Hrow, length_app. cbn. lia.
  - split; [exact (training_effect_trans Hstep Hlog) | intros ? ? Hd; discriminate Hd].
Qed.

Lemma train_frame (a : args R) (train_data : grid) (epoch : Z) (g : globals R B) :
  training_effect env a g (outcome_state (train env a train_data epoch g)).
Proof.
  unfold train.
  rewrite outcome_state_bind. cbn [on_model modify].
  rewrite outcome_state_bind. cbn [get].
  rewrite outcome_state_bind.
  set (g1 := with_model (module_train (model g)) g).
  assert (Hg1 : training_effect env a g g1)
    by (apply only_model_training_effect, only_model_with_model).
  destruct (window_offsets (args_bptt a) train_data) as [offsets | e];
    cbn [lift ret raise]; [|exact Hg1].
  rewrite outcome_state_bind.
  pose proof (@for_each_keeps _ _ _ (training_effect env a g)
                (train_window env a train_data epoch)
                (fun bi loc s Hs =>
                   training_effect_trans Hs
                     (proj1 (train_window_effect a train_data epoch bi loc s)))
                (Py.enumerate offsets)
                (of_int 0, init_hidden env (model g1) (args_batch_size a)) g1 Hg1)
    as Hloop.
  destruct (for_each (Py.enumerate offsets) (train_window env a train_data epoch)
              (of_int 0, init_hidden env (model g1) (args_batch_size a)) g1)
    as [loc g2 | e g2]; cbn in Hloop; exact Hloop.
Qed.

(** X13: a training pass changes the network, appends rows to the
    training metrics and lines to the output, and nothing else: the
    learning rate, the best loss, the checkpoint file and the
    validation and test metrics are as before, at every ending that
    the statements of [train] themselves give it: returning, raising
    from [range], [math.exp], the update loop or the arithmetic of
    the progress line, or stopped by Ctrl-C as a window starts. Every
    row it appends holds the exponential of its own cross entropy as
    perplexity. *)
Theorem train_effect (a : args R) (train_data : grid) (epoch : Z) (g : globals R B) :
  let s := outcome_state (train env a train_data epoch g) in
  lr s = lr g
  /\ best_val_loss s = best_val_loss g
  /\ eval_metrics s = eval_metrics g
  /\ test_metrics s = test_metrics g
  /\ model_pt s = model_pt g
  /\ saves s = saves g
  /\ (exists rows,
        train_metrics s = train_metrics g ++ rows
        /\ Forall (fun row => math_exp env (row_cross_entropy row) = Ok (row_perplexity row))
                  rows)
  /\ (exists lines, stdout s = stdout g ++ lines).
Proof.
  intros s.
  destruct (train_frame a train_data epoch g)
    as (H1 & H2 & H3 & H4 & H5 & H6 & (rows & Hrows & Hok) & Hlines).
  repeat (split; [assumption|]). split; [|exact Hlines].
  exists rows. split; [exact Hrows|].
  eapply Forall_impl; [|exact Hok].
  intros row (lv & _ & _ & _ & Hexp). exact Hexp.
Qed.

Lemma for_each_train_rows (a : args R) (train_data : grid) (epoch : Z)
    (xs : list (Z * Z)) :
  forall loc s loc' s',
    for_each xs (train_window env a train_data epoch) loc s = Done loc' s' ->
    length (train_metrics s') = (length (train_metrics s) + length xs)%nat.
Proof.
  induction xs as [|bi xs IH]; intros loc s loc' s' Hdone.
  - cbn in Hdone. injection Hdone as _ <-. cbn. lia.
  - cbn [for_each] in Hdone. unfold bind at 1 in Hdone.
    destruct (train_window_effect a train_data epoch bi loc s) as [_ Hrow].
    destruct (train_window env a train_data epoch bi loc s) as [loc1 s1 | e s1];
      [|discriminate].
    specialize (Hrow loc1 s1 eq_refl). rewrite (IH _ _ _ _ Hdone), Hrow.
    cbn [length]. lia.
Qed.

(** X14: a training pass that returns has appended exactly one row to
    the training metrics for each window of the stream. *)
Theorem train_rows (a : args R) (train_data : grid) (epoch : Z)
    (offsets : list Z) (g g' : globals R B) :
  window_offsets (args_bptt a) train_data = Ok offsets ->
  train env a train_data epoch g = Done tt g' ->
  length (train_metrics g') = (length (train_metrics g) + length offsets)%nat.
Proof.
  intros Hoff Hdone. unfold train in Hdone.
  unfold bind at 1 in Hdone. cbn [on_model modify] in Hdone.
  unfold bind at 1 in Hdone. cbn [get] in Hdone.
  unfold bind at 1 in Hdone. rewrite Hoff in Hdone. cbn [lift ret] in Hdone.
  unfold bind at 1 in Hdone.
  destruct (for_each (Py.enumerate offsets) (train_window env a train_data epoch) _ _)
    as [loc s | e s] eqn:Eloop; [|discriminate].
  cbn in Hdone. injection Hdone as <-.
  rewrite (for_each_train_rows _ _ _ _ _ _ Eloop). cbn [train_metrics with_model].
  unfold Py.enumerate. rewrite length_combine, length_map, length_seq. lia.
Qed.

End TrainingFacts.

(** ** What holds all along a run *)

Section RunInvariants.

Context {R : Type} {num : PyFloat R} {B H logits loss : Type}.
Variable env : Env R B H logits loss.

Lemma epoch_body_unfold (a : args R) (train_data val_data : grid) (epoch : Z)
    (g : globals R B) :
  epoch_body env a train_data val_data epoch tt g =
  match train env a train_data epoch g with
  | Abort e s => Abort e s
  | Done _ s1 =>
      match evaluate env a val_data s1 with
      | Abort e s => Abort e s
      | Done val_loss s2 =>
          match math_exp env val_loss with
          | Raise e => Abort e s2
          | Ok val_perplexity =>
              save_or_anneal epoch val_loss
                (print Dashes
                   (print (EpochLine epoch val_loss val_perplexity)
                      (print Dashes
                         (append_eval_metrics (val_loss, val_perplexity) s2))))
          end
      end
  end.
Proof.
  unfold epoch_body, bind.
  destruct (train env a train_data epoch g) as [[] s1 | e s1]; [|reflexivity].
  destruct (evaluate env a val_data s1) as [v s2 | e s2]; [|reflexivity].
  destruct (math_exp env v) as [p | e]; reflexivity.
Qed.

Lemma checkpoint_invariant_training (a : args R) (g s : globals R B) :
  training_effect env a g s -> checkpoint_invariant a g -> checkpoint_invariant a s.
Proof.
  unfold training_effect, checkpoint_invariant.
  intros (H1 & H2 & H3 & H4 & H5 & H6 & _ & _) Hinv.
  now rewrite H1, H2, H3, H5, H6.
Qed.

Lemma metrics_consistent_training (a : args R) (g s : globals R B) :
  training_effect env a g s -> metrics_consistent env a g -> metrics_consistent env a s.
Proof.
  unfold training_effect, metrics_consistent.
  intros (H1 & H2 & H3 & H4 & H5 & H6 & (rows & Hrows & Hok) & _) (Ht & He & Hs).
  rewrite H3, H4, Hrows. repeat split; try assumption.
  apply Forall_app. now split.
Qed.

Lemma print_training_effect (a : args R) (l : line R) (g : globals R B) :
  training_effect env a g (print l g).
Proof.
  unfold training_effect. cbn. repeat (split; [reflexivity|]). split.
  - exists []. split; [now rewrite app_nil_r | constructor].
  - now exists [l].
Qed.

(** The end of an epoch whose validation loss was computed. *)
Lemma record_epoch_keeps (a : args R) (epoch : Z) (v p : R) (s : globals R B) :
  math_exp env v = Ok p ->
  checkpoint_invariant a s /\ metrics_consistent env a s ->
  checkpoint_invariant a
    (outcome_state
       (save_or_anneal epoch v
          (print Dashes (print (EpochLine epoch v p)
             (print Dashes (append_eval_metrics (v, p) s))))))
  /\ metrics_consistent env a
       (outcome_state
          (save_or_anneal epoch v
             (print Dashes (print (EpochLine epoch v p)
                (print Dashes (append_eval_metrics (v, p) s)))))).
Proof.
  intros Hexp [(Hle & Hsaves & Hpt & Hbest & Hlr & Hin) (Ht & He & Hs)].
  rewrite save_or_anneal_decides. cbn [best_val_loss print append_eval_metrics].
  assert (Hev : Forall (fun lp => math_exp env (fst lp) = Ok (snd lp))
                       (eval_metrics s ++ [(v, p)]))
    by (apply Forall_app; split; [exact He | now repeat constructor]).
  assert (Hsaved :
    checkpoint_invariant a
      (with_best_val_loss (Some v)
         (torch_save epoch
            (print Dashes (print (EpochLine epoch v p)
               (print Dashes (append_eval_metrics (v, p) s))))))
    /\ metrics_consistent env a
         (with_best_val_loss (Some v)
            (torch_save epoch
               (print Dashes (print (EpochLine epoch v p)
                  (print Dashes (append_eval_metrics (v, p) s))))))).
  { split; [|unfold metrics_consistent; cbn; now repeat split].
    unfold checkpoint_invariant. cbn. rewrite !length_app. cbn [length].
    split; [lia|]. split; [split; intros E; destruct (app_cons_not_nil _ _ _ (eq_sym E))|].
    split; [split; [discriminate | intros E; destruct (app_cons_not_nil _ _ _ (eq_sym E))]|].
    split; [split; [discriminate | intros E; destruct (app_cons_not_nil _ _ _ (eq_sym E))]|].
    split.
    - replace (length (eval_metrics s) + 1 - (length (saves s) + 1))%nat
        with (length (eval_metrics s) - length (saves s))%nat by lia.
      exact Hlr.
    - intros v' Hv'. injection Hv' as <-. rewrite map_app. apply in_or_app.
      right. now left. }
  destruct (best_val_loss s) as [best|] eqn:Eb; [|exact Hsaved].
  destruct (negb (truth best) || flt v best); [exact Hsaved|].
  cbn [outcome_state]. split; [|unfold metrics_consistent; cbn; now repeat split].
  assert (Hne : saves s <> []) by (intros E; apply Hbest in E; discriminate E).
  unfold checkpoint_invariant. cbn. rewrite Eb, !length_app. cbn [length].
  split; [lia|].
  split; [split; [intros E; contradiction
                 | intros E; destruct (app_cons_not_nil _ _ _ (eq_sym E))]|].
  split; [exact Hpt|]. split; [split; [discriminate | intros E; contradiction]|].
  split.
  - replace (length (eval_metrics s) + 1 - length (saves s))%nat
      with (S (length (eval_metrics s) - length (saves s))) by lia.
    cbn [nat_rect]. unfold Nat.iter in Hlr. rewrite <- Hlr. reflexivity.
  - intros v' Hv'. rewrite map_app. apply in_or_app. left. now apply Hin.
Qed.

Lemma run_invariants_training (a : args R) (g s : globals R B) :
  training_effect env a g s -> run_invariants env a g -> run_invariants env a s.
Proof.
  intros Heff [Hc Hm]. split.
  - exact (checkpoint_invariant_training Heff Hc).
  - exact (metrics_consistent_training Heff Hm).
Qed.

Lemma epoch_body_keeps (a : args R) (train_data val_data : grid) (epoch : Z)
    (u : unit) (g : globals R B) :
  run_invariants env a g ->
  run_invariants env a (outcome_state (epoch_body env a train_data val_data epoch u g)).
Proof.
  intros Hg. destruct u. rewrite epoch_body_unfold.
  pose proof (run_invariants_training (train_frame env a train_data epoch g) Hg) as H1.
  destruct (train env a train_data epoch g) as [[] s1 | e s1]; cbn [outcome_state] in *;
    [|exact H1].
  pose proof (run_invariants_training
                (only_model_training_effect env a (evaluate_frame env a val_data s1)) H1)
    as H2.
  destruct (evaluate env a val_data s1) as [v s2 | e s2]; cbn [outcome_state] in *;
    [|exact H2].
  destruct (math_exp env v) as [p | e] eqn:Eexp; [|exact H2].
  exact (@record_epoch_keeps a epoch v p s2 Eexp H2).
Qed.

Lemma epoch_loop_keeps (a : args R) (train_data val_data : grid) (g : globals R B) :
  run_invariants env a g ->
  run_invariants env a (outcome_state (epoch_loop env a train_data val_data g)).
Proof.
  intros Hg. unfold epoch_loop, try_except.
  assert (Hinner : run_invariants env a
            (outcome_state
               ((epochs <~ lift (Py.range 1 (args_epochs a + 1) 1) ;;
                 for_each epochs (epoch_body env a train_data val_data) tt) g))).
  { rewrite outcome_state_bind.
    destruct (Py.range 1 (args_epochs a + 1) 1) as [epochs | e]; cbn [lift ret raise];
      [|exact Hg].
    apply (for_each_keeps (run_invariants env a)); [|exact Hg].
    intros epoch u s Hs. now apply epoch_body_keeps. }
  destruct ((epochs <~ lift (Py.range 1 (args_epochs a + 1) 1) ;;
             for_each epochs (epoch_body env a train_data val_data) tt) g)
    as [[] s | e s]; cbn [outcome_state] in *; [exact Hinner|].
  destruct (is_KeyboardInterrupt e); [|exact Hinner].
  unfold bind, modify. cbn [outcome_state].
  eapply run_invariants_training; [apply print_training_effect|].
  eapply run_invariants_training; [apply print_training_effect|]. exact Hinner.
Qed.

Lemma final_test_keeps (a : args R) (test_data : grid) (g : globals R B) :
  run_invariants env a g ->
  run_invariants env a (outcome_state (final_test env a test_data g)).
Proof.
  intros Hg. unfold final_test. rewrite outcome_state_bind. unfold load_best.
  destruct (model_pt g) as [m|] eqn:Em; [|exact Hg].
  rewrite outcome_state_bind.
  assert (H1 : run_invariants env a (with_model (torch_load m) g)).
  { eapply run_invariants_training; [|exact Hg].
    apply only_model_training_effect, only_model_with_model. }
  pose proof (run_invariants_training
                (only_model_training_effect env a
                   (evaluate_frame env a test_data (with_model (torch_load m) g))) H1) as H2.
  destruct (evaluate env a test_data (with_model (torch_load m) g)) as [v s2 | e s2];
    cbn [outcome_state] in *; [|exact H2].
  rewrite outcome_state_bind.
  destruct (math_exp env v) as [p | e] eqn:Eexp; cbn [lift ret raise]; [|exact H2].
  unfold bind, modify, ret. cbn [outcome_state].
  destruct H2 as [Hc (Ht & He & Hs)]. split.
  - unfold checkpoint_invariant in *. cbn. exact Hc.
  - unfold metrics_consistent. cbn. repeat split; try assumption.
    apply Forall_app. split; [exact Hs | now repeat constructor].
Qed.

Lemma initial_invariants (a : args R) (model0 : module R B) :
  run_invariants env a (initial a model0).
Proof.
  split.
  - unfold checkpoint_invariant. cbn. repeat split; try tauto; try discriminate. lia.
  - unfold metrics_consistent. cbn. repeat split; constructor.
Qed.

Lemma run_keeps (a : args R) (train_data val_data test_data : grid)
    (model0 : module R B) :
  run_invariants env a
    (outcome_state (run env a train_data val_data test_data (initial a model0))).
Proof.
  unfold run. rewrite outcome_state_bind.
  pose proof (@epoch_loop_keeps a train_data val_data _ (initial_invariants a model0)) as H1.
  destruct (epoch_loop env a train_data val_data (initial a model0)) as [[] s | e s];
    cbn [outcome_state] in *; [|exact H1].
  now apply final_test_keeps.
Qed.

(** X15: at every ending that the statements of the script
    themselves give a run (to its end, on an exception of [range],
    [math.exp], the update loop, the arithmetic of the progress line,
    [total_loss[0]] or the missing checkpoint, or on a Ctrl-C that
    arrives as a training window starts), a checkpoint file exists
    exactly when a
    validation loss was recorded, and exactly then there is a best
    loss, which is one of the recorded losses; the checkpoint was
    written at most once per recorded loss, and the learning rate is
    the initial rate divided by 4 once for each recorded loss that did
    not write it. *)
Theorem run_checkpoint_invariant (a : args R) (train_data val_data test_data : grid)
    (model0 : module R B) :
  checkpoint_invariant a
    (outcome_state (run env a train_data val_data test_data (initial a model0))).
Proof.
  destruct (run_keeps a train_data val_data test_data model0) as [Hc _]. exact Hc.
Qed.

(** X16: however a run ends (to its end, on an exception, or on a
    Ctrl-C that arrives as a training window starts), every perplexity
    in the training, validation and test metrics is the exponential of
    the loss recorded beside it. *)
Theorem run_metrics_consistent (a : args R) (train_data val_data test_data : grid)
    (model0 : module R B) :
  let s := outcome_state (run env a train_data val_data test_data (initial a model0)) in
  Forall (fun row => math_exp env (row_cross_entropy row) = Ok (row_perplexity row))
         (train_metrics s)
  /\ Forall (fun lp => math_exp env (fst lp) = Ok (snd lp)) (eval_metrics s)
  /\ Forall (fun lp => math_exp env (fst lp) = Ok (snd lp)) (test_metrics s).
Proof.
  intros s.
  destruct (run_keeps a train_data val_data test_data model0) as [_ (Ht & He & Hs)].
  repeat split; try assumption.
  eapply Forall_impl; [|exact Ht].
  intros row (lv & _ & _ & _ & Hexp). exact Hexp.
Qed.

(** X17: with a center-loss weight that is not positive, the training
    loss recorded for every window is its cross entropy. *)
Theorem train_loss_without_center (a : args R) (train_data val_data test_data : grid)
    (model0 : module R B) :
  flt (of_int 0) (args_LAMBDA a) = false ->
  Forall (fun row => row_train_loss row = row_cross_entropy row)
         (train_metrics
            (outcome_state (run env a train_data val_data test_data (initial a model0)))).
Proof.
  intros Hl.
  destruct (run_keeps a train_data val_data test_data model0) as [_ (Ht & _ & _)].
  eapply Forall_impl; [|exact Ht].
  intros row (lv & Hce & _ & Htl & _). rewrite Htl, Hce.
  unfold combined_loss. now rewrite Hl.
Qed.

(** X18: with no epoch to run, the loop is skipped, no checkpoint is
    written, and loading the best model raises. *)
Theorem run_without_epochs (a : args R) (train_data val_data test_data : grid)
    (model0 : module R B) :
  args_epochs a <= 0 ->
  run env a train_data val_data test_data (initial a model0)
  = Abort FileNotFoundError (initial a model0).
Proof.
  intros He. unfold run, bind, epoch_loop, try_except, bind, Py.range.
  cbn [Z.eqb Z.ltb Z.compare].
  replace (Z.to_nat ((args_epochs a + 1 - 1 + 1 - 1) / 1)) with 0%nat
    by (rewrite Z.div_1_r; lia).
  reflexivity.
Qed.

End RunInvariants.

(** ** The weights of the evaluation loss *)

Lemma zsum_app (l l' : list Z) : zsum (l ++ l') = zsum l + zsum l'.
Proof.
  unfold zsum. induction l as [|x l IH]; cbn [app fold_right]; [lia|].
  rewrite IH. lia.
Qed.

Lemma zsum_windows (b M : Z) (j : nat) :
  0 < b -> 0 <= M -> (forall k, (k < j)%nat -> Z.of_nat k * b < M) ->
  zsum (map (fun k => Z.min b (M - (0 + Z.of_nat k * b))) (seq 0 j))
  = Z.min (Z.of_nat j * b) M.
Proof.
  intros Hb HM. induction j as [|j IH]; intros Hk.
  - cbn. lia.
  - rewrite seq_S, map_app, zsum_app, IH by (intros k Hlt; apply Hk; lia).
    cbn [map zsum fold_right Nat.add]. specialize (Hk j ltac:(lia)). nia.
Qed.

Section WeightFacts.

Context {R : Type} {num : PyFloat R} {B H logits loss : Type}.
Variable env : Env R B H logits loss.

Lemma window_losses_lengths (bptt : Z) (source : grid) (offsets : list Z) :
  forall (h : hidden H) (m : module R B),
    map fst (fst (window_losses env bptt source offsets h m))
    = map (fun i => Z.min bptt (Py.len source - i - 1)) offsets.
Proof.
  induction offsets as [|i rest IH]; intros h m; [reflexivity|].
  cbn [window_losses fst map]. now rewrite IH.
Qed.

(** X20: the window lengths that weight the cross entropies in
    [evaluate] add up to the number of steps minus one, while the sum
    is divided by the number of steps. *)
Theorem evaluate_weights_sum (bptt : Z) (source : grid) (offsets : list Z)
    (h : hidden H) (m : module R B) :
  0 < bptt -> 1 <= Py.len source ->
  window_offsets bptt source = Ok offsets ->
  zsum (map fst (fst (window_losses env bptt source offsets h m))) = Py.len source - 1.
Proof.
  intros Hb Hlen Hoff. rewrite window_losses_lengths.
  unfold window_offsets in Hoff.
  rewrite range_ascending_exact in Hoff by exact Hb. injection Hoff as <-.
  rewrite map_map.
  set (M := Py.len source - 1).
  pose proof (Z.mul_div_le (M + bptt - 1) bptt Hb) as Hle.
  pose proof (Z.mul_succ_div_gt (M + bptt - 1) bptt Hb) as Hgt.
  assert (Hq : 0 <= (M + bptt - 1) / bptt) by (apply Z.div_pos; lia).
  rewrite (map_ext _ (fun k => Z.min bptt (M - (0 + Z.of_nat k * bptt))))
    by (intros k; unfold M; f_equal; lia).
  rewrite zsum_windows; [nia | exact Hb | unfold M; lia | intros k Hk; nia].
Qed.

End WeightFacts.

(** ** Reaching the epoch loop *)

Section ScriptFacts.

Context {R : Type} {num : PyFloat R} {B H logits loss : Type}.
Variable env : Env R B H logits loss.

(** X19: the three calls of [batchify] all return, so that the
    script gets past the loading of the data, exactly when the batch
    size is at least 1 and, with [--cuda], CUDA can be initialised. A
    split shorter than its stream-count does not stop the script
    there: its grid has zero rows. *)
Theorem reaches_epoch_loop_iff (a : args R) (c : corpus) (model0 : module R B) :
  reaches_epoch_loop env a c model0
  <-> 0 < args_batch_size a /\ (args_cuda a = true -> cuda_init env = Ok tt).
Proof.
  unfold reaches_epoch_loop, main, train_data, val_data, test_data, eval_batch_size.
  split.
  - intros [o Ho].
    destruct (batchify (cuda_init env) (args_cuda a) (corpus_train c) (args_batch_size a))
      as [td|e] eqn:Etd; [|discriminate Ho].
    destruct (batchify_ok_inv _ _ _ _ Etd) as [Hpos _]. split; [exact Hpos|].
    intros Hcuda. rewrite batchify_columns in Etd by exact Hpos. cbn zeta in Etd.
    rewrite Hcuda in Etd. unfold Tensor.cuda in Etd.
    destruct (cuda_init env) as [[]|e]; [reflexivity | discriminate Etd].
  - intros [Hpos Hcuda].
    rewrite (@batchify_columns (cuda_init env) (args_cuda a) (corpus_train c)
               (args_batch_size a)) by exact Hpos.
    rewrite (@batchify_columns (cuda_init env) (args_cuda a) (corpus_valid c) 10) by lia.
    rewrite (@batchify_columns (cuda_init env) (args_cuda a) (corpus_test c) 10) by lia.
    cbn zeta. destruct (args_cuda a).
    + rewrite (Hcuda eq_refl). cbn [Tensor.cuda rbind]. eexists. reflexivity.
    + cbn [rbind]. eexists. reflexivity.
Qed.

End ScriptFacts.

(** ** More runs in the small world *)

Module ToyRuns.

Import Toy.
Open Scope float_scope.

Lemma evaluate_without_window_witness :
  (0 < args_bptt (args0 1 200))%Z /\ (Py.len one_step <= 1)%Z
  /\ evaluate (env [10.0] (fun x => x) never) (args0 1 200) one_step
              (initial (args0 1 200) model0)
     = Abort TypeError (with_model (module_eval model0) (initial (args0 1 200) model0)).
Proof.
  split; [simpl; lia|]. split; [unfold Py.len; simpl; lia|].
  apply (@evaluate_without_window _ _ _ _ _ _ (env [10.0] (fun x => x) never)
           (args0 1 200) one_step (initial (args0 1 200) model0));
    [simpl; lia | unfold Py.len; simpl; lia].
Defined.

Lemma train_without_window_witness :
  (0 < args_bptt (args0 1 200))%Z /\ (Py.len [[0%Z]] <= 1)%Z
  /\ train (env [] (fun x => x) never) (args0 1 200) [[0%Z]] 1%Z
           (initial (args0 1 200) (trained_on model0 0))
     = Done tt (with_model (module_train (trained_on model0 0))
                           (initial (args0 1 200) (trained_on model0 0))).
Proof.
  split; [simpl; lia|]. split; [unfold Py.len; simpl; lia|].
  apply (@train_without_window _ _ _ _ _ _ (env [] (fun x => x) never)
           (args0 1 200) [[0%Z]] 1%Z (initial (args0 1 200) (trained_on model0 0)));
    [simpl; lia | unfold Py.len; simpl; lia].
Defined.

Lemma train_rows_witness :
  let e := env [] (fun x => x) never in
  let a := args0 1 2 in
  let g := initial a model0 in
  let g' := outcome_state (train e a six_steps 1%Z g) in
  window_offsets (args_bptt a) six_steps = Ok [0; 1; 2; 3; 4]%Z
  /\ train e a six_steps 1%Z g = Done tt g'
  /\ length (train_metrics g') = (length (train_metrics g) + 5)%nat.
Proof.
  intros e a g g'.
  assert (Hoff : window_offsets (args_bptt a) six_steps = Ok [0; 1; 2; 3; 4]%Z)
    by reflexivity.
  assert (Hdone : train e a six_steps 1%Z g = Done tt g') by (vm_compute; reflexivity).
  split; [exact Hoff|]. split; [exact Hdone|].
  apply (@train_rows _ _ _ _ _ _ e a six_steps 1%Z [0; 1; 2; 3; 4]%Z g g' Hoff Hdone).
Defined.

Lemma train_loss_without_center_witness :
  let e := env [10.0; 8.0] (fun x => x) never in
  let a := args0 2 200 in
  flt (of_int 0) (args_LAMBDA a) = false
  /\ Forall (fun row => row_train_loss row = row_cross_entropy row)
            (train_metrics
               (outcome_state (run e a two_steps ten_wide ten_wide (initial a model0)))).
Proof.
  intros e a. split; [reflexivity|].
  apply (@train_loss_without_center _ _ _ _ _ _ e a two_steps ten_wide ten_wide model0).
  reflexivity.
Defined.

Lemma run_without_epochs_witness :
  let e := env [10.0] (fun x => x) never in
  let a := args0 0 200 in
  (args_epochs a <= 0)%Z
  /\ run e a two_steps ten_wide ten_wide (initial a model0)
     = Abort FileNotFoundError (initial a model0).
Proof.
  intros e a. split; [simpl; lia|].
  apply (@run_without_epochs _ _ _ _ _ _ e a two_steps ten_wide ten_wide model0).
  simpl. lia.
Defined.

Lemma evaluate_weights_sum_witness :
  let e := env [10.0] (fun x => x) never in
  (0 < 2)%Z /\ (1 <= Py.len six_steps)%Z
  /\ window_offsets 2 six_steps = Ok [0; 2; 4]%Z
  /\ zsum (map fst (fst (window_losses e 2 six_steps [0; 2; 4]%Z (Var tt false) model0)))
     = (Py.len six_steps - 1)%Z.
Proof.
  intros e. split; [lia|]. split; [unfold Py.len; simpl; lia|].
  split; [reflexivity|].
  apply (@evaluate_weights_sum _ _ _ _ _ e 2%Z six_steps [0; 2; 4]%Z (Var tt false)
           model0); [lia | unfold Py.len; simpl; lia | reflexivity].
Defined.

(** Four epochs with the losses 5.0, 4.0, 4.5, 3.0: three writes of
    the checkpoint for four recorded losses, and a rate of 20 / 4. *)
Example four_epochs_invariant (exp : float -> float) :
  let a := args0 4 200 in
  let s := outcome_state
             (run (env [10.0; 8.0; 9.0; 6.0] exp never) a
                  two_steps ten_wide ten_wide (initial a model0)) in
  length (saves s) = 3%nat /\ length (eval_metrics s) = 4%nat
  /\ lr s = Nat.iter 1 anneal (args_lr a).
Proof. vm_compute. repeat split. Qed.

End ToyRuns.
